(** * Download finalization on Windows: interrupt-reason classification

    A shallow embedding of [content/browser/download/base_file_win.cc]:
    the two result classifiers [MapShFileOperationCodes] and
    [MapScanAndSaveErrorCodeToInterruptReason], and the two [BaseFile]
    methods that use them, [MoveFileAndAdjustPermissions] and
    [AnnotateWithSourceInformation].

    Integers of the C++ code ([int], [HRESULT], [BOOL], flag words) are
    values of [Z]; the operating system, the attachment scanner and the
    generic error translator are external collaborators and appear as the
    fields of two interfaces, [ErrorTranslator] and [Environment]. *)

From Stdlib Require Import ZArith List String Ascii Bool Lia.
Import ListNotations.
Local Open Scope Z_scope.

(** ** Machine integers *)

(** A C++ [int] or a Windows [HRESULT] is a 32-bit two's complement value. *)
Definition int32_range (z : Z) : Prop := -2^31 <= z < 2^31.

(** The 32-bit pattern [z] read as a signed value, as the cast
    [(HRESULT)0x800c000eL] does. *)
Definition to_int32 (z : Z) : Z := (z + 2^31) mod 2^32 - 2^31.

Definition HRESULT := Z.

(** [SUCCEEDED(hr)] is [((HRESULT)(hr) >= 0)] and [FAILED(hr)] is
    [((HRESULT)(hr) < 0)] in the Windows headers. *)
Definition SUCCEEDED (hr : HRESULT) : bool := 0 <=? hr.
Definition FAILED (hr : HRESULT) : bool := hr <? 0.

Definition S_OK : HRESULT := 0.
Definition E_FAIL : HRESULT := to_int32 0x80004005.
Definition E_ACCESSDENIED : HRESULT := to_int32 0x80070005.
Definition INET_E_SECURITY_PROBLEM : HRESULT := to_int32 0x800c000e.

(** ** The interrupt-reason enumeration *)

(** Modelled from the spec: the declaration of the enumeration
    [DownloadInterruptReason] is not part of the translated file.  The data
    model names eight members and adds the categories that the generic
    OS-error translator produces, which this code only forwards; the last
    constructor stands for those, tagged by an opaque category number. *)
Inductive DownloadInterruptReason : Type :=
| DOWNLOAD_INTERRUPT_REASON_NONE
| DOWNLOAD_INTERRUPT_REASON_FILE_FAILED
| DOWNLOAD_INTERRUPT_REASON_FILE_ACCESS_DENIED
| DOWNLOAD_INTERRUPT_REASON_FILE_NAME_TOO_LONG
| DOWNLOAD_INTERRUPT_REASON_FILE_TOO_LARGE
| DOWNLOAD_INTERRUPT_REASON_FILE_BLOCKED
| DOWNLOAD_INTERRUPT_REASON_FILE_VIRUS_INFECTED
| DOWNLOAD_INTERRUPT_REASON_FILE_SECURITY_CHECK_FAILED
| DOWNLOAD_INTERRUPT_REASON_PASSTHROUGH (category : Z).

Definition reason_eqb (a b : DownloadInterruptReason) : bool :=
  match a, b with
  | DOWNLOAD_INTERRUPT_REASON_NONE, DOWNLOAD_INTERRUPT_REASON_NONE => true
  | DOWNLOAD_INTERRUPT_REASON_FILE_FAILED,
    DOWNLOAD_INTERRUPT_REASON_FILE_FAILED => true
  | DOWNLOAD_INTERRUPT_REASON_FILE_ACCESS_DENIED,
    DOWNLOAD_INTERRUPT_REASON_FILE_ACCESS_DENIED => true
  | DOWNLOAD_INTERRUPT_REASON_FILE_NAME_TOO_LONG,
    DOWNLOAD_INTERRUPT_REASON_FILE_NAME_TOO_LONG => true
  | DOWNLOAD_INTERRUPT_REASON_FILE_TOO_LARGE,
    DOWNLOAD_INTERRUPT_REASON_FILE_TOO_LARGE => true
  | DOWNLOAD_INTERRUPT_REASON_FILE_BLOCKED,
    DOWNLOAD_INTERRUPT_REASON_FILE_BLOCKED => true
  | DOWNLOAD_INTERRUPT_REASON_FILE_VIRUS_INFECTED,
    DOWNLOAD_INTERRUPT_REASON_FILE_VIRUS_INFECTED => true
  | DOWNLOAD_INTERRUPT_REASON_FILE_SECURITY_CHECK_FAILED,
    DOWNLOAD_INTERRUPT_REASON_FILE_SECURITY_CHECK_FAILED => true
  | DOWNLOAD_INTERRUPT_REASON_PASSTHROUGH c,
    DOWNLOAD_INTERRUPT_REASON_PASSTHROUGH d => c =? d
  | _, _ => false
  end.

(** ** The generic OS-error translator *)

(** [net::MapSystemError] and [ConvertNetErrorToInterruptReason] live in
    other directories; they are pure functions and are taken as given. *)
Class ErrorTranslator : Type := {
  DownloadInterruptSource : Type;
  DOWNLOAD_INTERRUPT_FROM_DISK : DownloadInterruptSource;
  MapSystemError : Z -> Z;
  ConvertNetErrorToInterruptReason :
    Z -> DownloadInterruptSource -> DownloadInterruptReason
}.

(** ** [MapShFileOperationCodes] *)

(** The case labels of the [switch], in the order of the source. *)
Definition ShFileOperationCases : list (Z * DownloadInterruptReason) :=
  [ (0x71,    DOWNLOAD_INTERRUPT_REASON_FILE_FAILED);           (* DE_SAMEFILE *)
    (0x75,    DOWNLOAD_INTERRUPT_REASON_FILE_FAILED);           (* DE_OPCANCELLED *)
    (0x78,    DOWNLOAD_INTERRUPT_REASON_FILE_ACCESS_DENIED);    (* DE_ACCESSDENIEDSRC *)
    (0x79,    DOWNLOAD_INTERRUPT_REASON_FILE_NAME_TOO_LONG);    (* DE_PATHTOODEEP *)
    (0x7C,    DOWNLOAD_INTERRUPT_REASON_FILE_FAILED);           (* DE_INVALIDFILES *)
    (0x7E,    DOWNLOAD_INTERRUPT_REASON_FILE_FAILED);           (* DE_FLDDESTISFILE *)
    (0x80,    DOWNLOAD_INTERRUPT_REASON_FILE_FAILED);           (* DE_FILEDESTISFLD *)
    (0x81,    DOWNLOAD_INTERRUPT_REASON_FILE_NAME_TOO_LONG);    (* DE_FILENAMETOOLONG *)
    (0x82,    DOWNLOAD_INTERRUPT_REASON_FILE_ACCESS_DENIED);    (* DE_DEST_IS_CDROM *)
    (0x83,    DOWNLOAD_INTERRUPT_REASON_FILE_ACCESS_DENIED);    (* DE_DEST_IS_DVD *)
    (0x84,    DOWNLOAD_INTERRUPT_REASON_FILE_ACCESS_DENIED);    (* DE_DEST_IS_CDRECORD *)
    (0x85,    DOWNLOAD_INTERRUPT_REASON_FILE_TOO_LARGE);        (* DE_FILE_TOO_LARGE *)
    (0x86,    DOWNLOAD_INTERRUPT_REASON_FILE_ACCESS_DENIED);    (* DE_SRC_IS_CDROM *)
    (0x87,    DOWNLOAD_INTERRUPT_REASON_FILE_ACCESS_DENIED);    (* DE_SRC_IS_DVD *)
    (0x88,    DOWNLOAD_INTERRUPT_REASON_FILE_ACCESS_DENIED);    (* DE_SRC_IS_CDRECORD *)
    (0xB7,    DOWNLOAD_INTERRUPT_REASON_FILE_NAME_TOO_LONG);    (* DE_ERROR_MAX *)
    (0x10000, DOWNLOAD_INTERRUPT_REASON_FILE_FAILED);           (* XE_ERRORONDEST *)
    (0x72,    DOWNLOAD_INTERRUPT_REASON_FILE_FAILED);           (* DE_MANYSRC1DEST *)
    (0x73,    DOWNLOAD_INTERRUPT_REASON_FILE_FAILED);           (* DE_DIFFDIR *)
    (0x74,    DOWNLOAD_INTERRUPT_REASON_FILE_FAILED);           (* DE_ROOTDIR *)
    (0x76,    DOWNLOAD_INTERRUPT_REASON_FILE_FAILED);           (* DE_DESTSUBTREE *)
    (0x7A,    DOWNLOAD_INTERRUPT_REASON_FILE_FAILED);           (* DE_MANYDEST *)
    (0x7D,    DOWNLOAD_INTERRUPT_REASON_FILE_FAILED);           (* DE_DESTSAMETREE *)
    (0x402,   DOWNLOAD_INTERRUPT_REASON_FILE_FAILED);           (* DE_UNKNOWN_ERROR *)
    (0x10074, DOWNLOAD_INTERRUPT_REASON_FILE_FAILED)            (* DE_ROOTDIR | ERRORONDEST *)
  ].

(** A [switch] whose every case returns: the reason of the case whose
    label equals [code], or nothing when control leaves the [switch]. *)
Fixpoint switch_return {A : Type} (cases : list (Z * A)) (code : Z) : option A :=
  match cases with
  | [] => None
  | (label, r) :: rest =>
      if code =? label then Some r else switch_return rest code
  end.

Definition MapShFileOperationCodes `{ErrorTranslator} (code : Z)
  : DownloadInterruptReason :=
  match switch_return ShFileOperationCases code with
  | Some reason => reason
  | None =>
      (* If not one of the above codes, it should be a standard Windows
         error code. *)
      ConvertNetErrorToInterruptReason
        (MapSystemError code) DOWNLOAD_INTERRUPT_FROM_DISK
  end.

(** ** [MapScanAndSaveErrorCodeToInterruptReason] *)

Definition MapScanAndSaveErrorCodeToInterruptReason (result : HRESULT)
  : DownloadInterruptReason :=
  if SUCCEEDED result then DOWNLOAD_INTERRUPT_REASON_NONE
  else if result =? INET_E_SECURITY_PROBLEM then
    DOWNLOAD_INTERRUPT_REASON_FILE_BLOCKED
  else if result =? E_FAIL then
    DOWNLOAD_INTERRUPT_REASON_FILE_VIRUS_INFECTED
  else
    DOWNLOAD_INTERRUPT_REASON_FILE_SECURITY_CHECK_FAILED.

(** ** The world around a [BaseFile] *)

Definition FilePath := string.
Definition GURL := string.

(** The members of [BaseFile] that the two methods read.  The net log the
    object is bound to is part of the event trace below. *)
Record BaseFile : Type := {
  full_path_ : FilePath;
  source_url_ : GURL;
  detached_ : bool
}.

(** The argument block of [SHFileOperation], as [shellapi.h] declares it.
    A [NULL] string pointer is [None]. *)
Record SHFILEOPSTRUCT : Type := {
  hwnd : Z;
  wFunc : Z;
  pFrom : option string;
  pTo : option string;
  fFlags : Z;
  fAnyOperationsAborted : Z;
  hNameMappings : Z;
  lpszProgressTitle : option string
}.

Definition FO_MOVE : Z := 0x0001.
Definition FOF_SILENT : Z := 0x0004.
Definition FOF_NOCONFIRMATION : Z := 0x0010.
Definition FOF_NOCONFIRMMKDIR : Z := 0x0200.
Definition FOF_NOERRORUI : Z := 0x0400.
Definition FOF_NOCOPYSECURITYATTRIBS : Z := 0x0800.

Inductive NetLogEventType : Type :=
| TYPE_DOWNLOAD_FILE_ANNOTATED.

Inductive DownloadCountTypes : Type :=
| FILE_MISSING_AFTER_SUCCESSFUL_SCAN_COUNT.

(** What a call leaves behind for an observer: net-log events, histogram
    counts and interrupt-reason log entries, oldest first. *)
Inductive Event : Type :=
| NetLogBeginEvent (type : NetLogEventType)
| NetLogEndEvent (type : NetLogEventType)
| DownloadCountRecorded (type : DownloadCountTypes)
| InterruptReasonLogged
    (operation : string) (os_error : Z) (reason : DownloadInterruptReason).


(** The operating system and the build, seen from this file.  [OS] is the
    state the system calls read and change (the file system above all).
    [SHFileOperation] returns its result code together with the argument
    block as the call left it, [fAnyOperationsAborted] included.
    [DCHECK_IS_ON] tells whether debug assertions are compiled in. *)
Class Environment : Type := {
  OS : Type;
  SHFileOperation : SHFILEOPSTRUCT -> OS -> (Z * SHFILEOPSTRUCT) * OS;
  ScanAndSaveDownloadedFile : FilePath -> GURL -> OS -> HRESULT * OS;
  PathExists : FilePath -> OS -> bool;
  BrowserThread_ID : Type;
  BrowserThread_FILE : BrowserThread_ID;
  BrowserThread_CurrentlyOn : BrowserThread_ID -> bool;
  ThreadRestrictions_io_allowed : bool;
  DCHECK_IS_ON : bool
}.

Record State `{Environment} : Type := {
  os_state : OS;
  events : list Event
}.

(** ** A monad for state and fatal assertions *)

(** A computation reads and changes the [State]; [None] is the process
    brought down by a failed debug assertion. *)
Definition M `{Environment} (A : Type) : Type := State -> option (A * State).

Definition ret `{Environment} {A : Type} (a : A) : M A :=
  fun s => Some (a, s).

Definition bind `{Environment} {A B : Type} (m : M A) (k : A -> M B) : M B :=
  fun s =>
    match m s with
    | Some (a, s') => k a s'
    | None => None
    end.

Declare Scope m_scope.
Delimit Scope m_scope with M.
Notation "x <- m ;; k" := (bind m (fun x => k))
  (at level 100, m at next level, right associativity) : m_scope.
Notation "m ;; k" := (bind m (fun _ => k))
  (at level 100, right associativity) : m_scope.
Notation "' p <- m ;; k" := (bind m (fun x => let 'p := x in k))
  (at level 100, p pattern, m at next level, right associativity) : m_scope.

Definition emit `{Environment} (e : Event) : M unit :=
  fun s => Some (tt, {| os_state := os_state s; events := events s ++ [e] |}).

(** A system call: it changes the [OS] part of the state only. *)
Definition syscall `{Environment} {A : Type} (f : OS -> A * OS) : M A :=
  fun s =>
    let (a, os') := f (os_state s) in
    Some (a, {| os_state := os'; events := events s |}).

Definition query `{Environment} {A : Type} (f : OS -> A) : M A :=
  fun s => Some (f (os_state s), s).

(** [DCHECK(condition)]: fatal when debug assertions are compiled in and
    the condition is false, nothing otherwise. *)
Definition DCHECK `{Environment} (condition : bool) : M unit :=
  fun s => if DCHECK_IS_ON && negb condition then None else Some (tt, s).

(** [base::ThreadRestrictions::AssertIOAllowed()] is a debug assertion on
    the calling thread's permission to block on I/O. *)
Definition AssertIOAllowed `{Environment} : M unit :=
  DCHECK ThreadRestrictions_io_allowed.

Definition RecordDownloadCount `{Environment} (type : DownloadCountTypes)
  : M unit :=
  emit (DownloadCountRecorded type).

(** Modelled from the spec: [BaseFile::LogInterruptReason] is defined in
    the platform-independent part of the class, which is not among the
    sources.  The diagnostic logger takes the operation name, the raw code
    and the derived reason, records them, and never affects the reason,
    which it hands back. *)
Definition LogInterruptReason `{Environment}
  (operation : string) (os_error : Z) (reason : DownloadInterruptReason)
  : M DownloadInterruptReason :=
  (emit (InterruptReasonLogged operation os_error reason) ;;
   ret reason)%M.

(** What a run returned, if it returned. *)
Definition returned `{Environment} {A : Type} (r : option (A * State))
  : option A :=
  option_map fst r.

(** ** [BaseFile::MoveFileAndAdjustPermissions] *)

Definition NUL : string := String zero EmptyString.

(** [std::wstring::c_str()]: the characters of the string followed by the
    terminator. *)
Definition c_str (s : string) : string := (s ++ NUL)%string.

(** [SHFILEOPSTRUCT move_info = {0};] *)
Definition SHFILEOPSTRUCT_zero : SHFILEOPSTRUCT :=
  {| hwnd := 0; wFunc := 0; pFrom := None; pTo := None; fFlags := 0;
     fAnyOperationsAborted := 0; hNameMappings := 0;
     lpszProgressTitle := None |}.

(** The argument block the method fills in before the call. *)
Definition move_info_for (this : BaseFile) (new_path : FilePath)
  : SHFILEOPSTRUCT :=
  (* The parameters to SHFileOperation must be terminated with 2 NULL
     chars. *)
  let source := full_path_ this in
  let target := new_path in
  let source := (source ++ NUL)%string in
  let target := (target ++ NUL)%string in
  let move_info := SHFILEOPSTRUCT_zero in
  {| hwnd := hwnd move_info;
     wFunc := FO_MOVE;
     pFrom := Some (c_str source);
     pTo := Some (c_str target);
     fFlags :=
       Z.lor (Z.lor (Z.lor (Z.lor FOF_SILENT FOF_NOCONFIRMATION) FOF_NOERRORUI)
                FOF_NOCONFIRMMKDIR) FOF_NOCOPYSECURITYATTRIBS;
     fAnyOperationsAborted := fAnyOperationsAborted move_info;
     hNameMappings := hNameMappings move_info;
     lpszProgressTitle := lpszProgressTitle move_info |}.

Definition MoveFileAndAdjustPermissions `{ErrorTranslator} `{Environment}
  (this : BaseFile) (new_path : FilePath) : M DownloadInterruptReason :=
  (AssertIOAllowed ;;
   ' (result, move_info) <- syscall (SHFileOperation (move_info_for this new_path)) ;;
   let interrupt_reason := DOWNLOAD_INTERRUPT_REASON_NONE in
   let interrupt_reason :=
     if (result =? 0) && negb (fAnyOperationsAborted move_info =? 0) then
       DOWNLOAD_INTERRUPT_REASON_FILE_FAILED
     else if negb (result =? 0) then
       MapShFileOperationCodes result
     else interrupt_reason in
   if negb (reason_eqb interrupt_reason DOWNLOAD_INTERRUPT_REASON_NONE) then
     LogInterruptReason "SHFileOperation" result interrupt_reason
   else ret interrupt_reason)%M.

(** ** [BaseFile::AnnotateWithSourceInformation] *)

Definition AnnotateWithSourceInformation `{Environment} (this : BaseFile)
  : M DownloadInterruptReason :=
  (DCHECK (BrowserThread_CurrentlyOn BrowserThread_FILE) ;;
   DCHECK (negb (detached_ this)) ;;
   emit (NetLogBeginEvent TYPE_DOWNLOAD_FILE_ANNOTATED) ;;
   let result := DOWNLOAD_INTERRUPT_REASON_NONE in
   hr <- syscall (ScanAndSaveDownloadedFile (full_path_ this) (source_url_ this)) ;;
   (* If the download file is missing after the call, then treat this as
      an interrupted download.  If the call failed, but the downloaded file
      is still around, then don't interrupt the download. *)
   path_exists <- query (PathExists (full_path_ this)) ;;
   result <-
     (if negb path_exists then
        DCHECK (FAILED hr) ;;
        let result := MapScanAndSaveErrorCodeToInterruptReason hr in
        result <-
          (if reason_eqb result DOWNLOAD_INTERRUPT_REASON_NONE then
             RecordDownloadCount FILE_MISSING_AFTER_SUCCESSFUL_SCAN_COUNT ;;
             ret DOWNLOAD_INTERRUPT_REASON_FILE_SECURITY_CHECK_FAILED
           else ret result) ;;
        LogInterruptReason "ScanAndSaveDownloadedFile" hr result ;;
        ret result
      else ret result) ;;
   emit (NetLogEndEvent TYPE_DOWNLOAD_FILE_ANNOTATED) ;;
   ret result)%M.

(** ** Observables of one call *)

Section Observables.
Context `{Environment}.

(** What the relocation primitive reports for this call: its result code
    and the any-operations-aborted flag it left in the argument block. *)
Definition relocation_code (this : BaseFile) (new_path : FilePath)
  (s : State) : Z :=
  fst (fst (SHFileOperation (move_info_for this new_path) (os_state s))).

Definition relocation_aborted (this : BaseFile) (new_path : FilePath)
  (s : State) : bool :=
  negb (fAnyOperationsAborted
          (snd (fst (SHFileOperation (move_info_for this new_path)
                       (os_state s)))) =? 0).

(** The status the inspection call returns, and whether the file is
    still on disk once the call has returned. *)
Definition inspection_status (this : BaseFile) (s : State) : HRESULT :=
  fst (ScanAndSaveDownloadedFile (full_path_ this) (source_url_ this)
         (os_state s)).

Definition exists_after_inspection (this : BaseFile) (s : State) : bool :=
  PathExists (full_path_ this)
    (snd (ScanAndSaveDownloadedFile (full_path_ this) (source_url_ this)
            (os_state s))).

(** The entry assertions of the two methods: they matter only where
    debug assertions are compiled in. *)
Definition relocate_entry_ok : Prop :=
  DCHECK_IS_ON = true -> ThreadRestrictions_io_allowed = true.

Definition annotate_entry_ok (this : BaseFile) : Prop :=
  DCHECK_IS_ON = true ->
  BrowserThread_CurrentlyOn BrowserThread_FILE = true /\
  detached_ this = false.

(** The events a run added to those already in [s]. *)
Definition added_events {A : Type} (s : State) (r : option (A * State))
  : option (list Event) :=
  option_map (fun p => skipn (List.length (events s)) (events (snd p))) r.
End Observables.

(** ** Summaries used to state what a run does *)

(** The reason [MoveFileAndAdjustPermissions] derives from what the
    relocation primitive reported. *)
Definition relocation_reason `{ErrorTranslator} (code : Z) (aborted : bool)
  : DownloadInterruptReason :=
  if code =? 0 then
    if aborted then DOWNLOAD_INTERRUPT_REASON_FILE_FAILED
    else DOWNLOAD_INTERRUPT_REASON_NONE
  else MapShFileOperationCodes code.

(** The events of an annotate run that found the file intact, and of one
    that found it missing after the status [hr]. *)
Definition annotate_events_intact : list Event :=
  [NetLogBeginEvent TYPE_DOWNLOAD_FILE_ANNOTATED;
   NetLogEndEvent TYPE_DOWNLOAD_FILE_ANNOTATED].

Definition annotate_events_missing (hr : HRESULT) : list Event :=
  let reason := MapScanAndSaveErrorCodeToInterruptReason hr in
  if reason_eqb reason DOWNLOAD_INTERRUPT_REASON_NONE then
    [NetLogBeginEvent TYPE_DOWNLOAD_FILE_ANNOTATED;
     DownloadCountRecorded FILE_MISSING_AFTER_SUCCESSFUL_SCAN_COUNT;
     InterruptReasonLogged "ScanAndSaveDownloadedFile" hr
       DOWNLOAD_INTERRUPT_REASON_FILE_SECURITY_CHECK_FAILED;
     NetLogEndEvent TYPE_DOWNLOAD_FILE_ANNOTATED]
  else
    [NetLogBeginEvent TYPE_DOWNLOAD_FILE_ANNOTATED;
     InterruptReasonLogged "ScanAndSaveDownloadedFile" hr reason;
     NetLogEndEvent TYPE_DOWNLOAD_FILE_ANNOTATED].

(** ** A small concrete environment *)

(** The file system is the list of the paths that exist.  The relocation
    primitive answers [sh_code] and [sh_aborted]; the inspection service
    answers [scan_hr] and removes the file when [scan_deletes]. *)
Definition sample_environment (dcheck : bool) (sh_code sh_aborted : Z)
  (scan_hr : HRESULT) (scan_deletes : bool) : Environment :=
  {| OS := list FilePath;
     SHFileOperation := fun move_info fs =>
       ((sh_code,
         {| hwnd := hwnd move_info; wFunc := wFunc move_info;
            pFrom := pFrom move_info; pTo := pTo move_info;
            fFlags := fFlags move_info;
            fAnyOperationsAborted := sh_aborted;
            hNameMappings := hNameMappings move_info;
            lpszProgressTitle := lpszProgressTitle move_info |}), fs);
     ScanAndSaveDownloadedFile := fun path url fs =>
       (scan_hr,
        if scan_deletes then filter (fun p => negb (String.eqb p path)) fs
        else fs);
     PathExists := fun path fs => existsb (String.eqb path) fs;
     BrowserThread_ID := unit;
     BrowserThread_FILE := tt;
     BrowserThread_CurrentlyOn := fun _ => true;
     ThreadRestrictions_io_allowed := true;
     DCHECK_IS_ON := dcheck |}.

(** A translator that forwards every code as a passthrough category. *)
Definition sample_translator : ErrorTranslator :=
  {| DownloadInterruptSource := unit;
     DOWNLOAD_INTERRUPT_FROM_DISK := tt;
     MapSystemError := fun code => - code;
     ConvertNetErrorToInterruptReason := fun net_error _ =>
       if net_error =? 0 then DOWNLOAD_INTERRUPT_REASON_NONE
       else DOWNLOAD_INTERRUPT_REASON_PASSTHROUGH net_error |}.

Definition sample_file : BaseFile :=
  {| full_path_ := "C:\Downloads\setup.exe"%string;
     source_url_ := "http://example.com/setup.exe"%string;
     detached_ := false |}.

Definition sample_disk : list FilePath := ["C:\Downloads\setup.exe"%string].

Definition sample_state (E : Environment) (fs : @OS E) : @State E :=
  {| os_state := fs; events := [] |}.

(** The annotate step run on [sample_file], present on disk, against an
    inspection service that answers [scan_hr]. *)
Definition sample_annotate (dcheck : bool) (scan_hr : HRESULT)
  (scan_deletes : bool) :=
  let E := sample_environment dcheck 0 0 scan_hr scan_deletes in
  @AnnotateWithSourceInformation E sample_file (sample_state E sample_disk).

(** The relocate step run on [sample_file] against a relocation primitive
    that answers [sh_code] and [sh_aborted]. *)
Definition sample_target : FilePath := "D:\Users\me\setup.exe"%string.

Definition sample_relocate (dcheck : bool) (sh_code sh_aborted : Z) :=
  let E := sample_environment dcheck sh_code sh_aborted S_OK false in
  @MoveFileAndAdjustPermissions sample_translator E sample_file
    sample_target (sample_state E sample_disk).

(** What the sample relocation primitive reports in that run. *)
Definition sample_relocation_code (dcheck : bool) (sh_code sh_aborted : Z)
  : Z :=
  let E := sample_environment dcheck sh_code sh_aborted S_OK false in
  @relocation_code E sample_file sample_target (sample_state E sample_disk).

Definition sample_relocation_aborted (dcheck : bool) (sh_code sh_aborted : Z)
  : bool :=
  let E := sample_environment dcheck sh_code sh_aborted S_OK false in
  @relocation_aborted E sample_file sample_target (sample_state E sample_disk).

(** What the sample inspection service reports in that run, and whether
    the sample file is on disk after it. *)
Definition sample_inspection_status (dcheck : bool) (scan_hr : HRESULT)
  (scan_deletes : bool) : HRESULT :=
  let E := sample_environment dcheck 0 0 scan_hr scan_deletes in
  @inspection_status E sample_file (sample_state E sample_disk).

Definition sample_exists_after (dcheck : bool) (scan_hr : HRESULT)
  (scan_deletes : bool) : bool :=
  let E := sample_environment dcheck 0 0 scan_hr scan_deletes in
  @exists_after_inspection E sample_file (sample_state E sample_disk).

(** * The GPS location provider

    A shallow embedding of
    [chrome/browser/geolocation/gps_location_provider_linux.cc]: the
    movement test [PositionsDifferSiginificantly] and the methods of
    [GpsLocationProviderLinux] that start the provider and poll the GPS
    library.  Double arithmetic, the [Geoposition] predicates, the GPS
    library and the message loop belong to other files and are interfaces
    here. *)
Module Gps.

(** The operations on [double] that the movement test uses, and the
    members of [Geoposition] this file never touches. *)
Class Arithmetic : Type := {
  double : Type;
  double_of_int : Z -> double;
  double_sub : double -> double -> double;
  double_add : double -> double -> double;
  double_mul : double -> double -> double;
  double_gt : double -> double -> bool;
  std_fabs : double -> double;
  std_pow : double -> Z -> double;
  std_sqrt : double -> double;
  GeopositionRest : Type
}.

(** [Geoposition::ErrorCode] is an enumeration, an [int] underneath. *)
Record Geoposition `{Arithmetic} : Type := {
  latitude : double;
  longitude : double;
  error_code : Z;
  rest : GeopositionRest
}.

(** A [LibGps*]: an address, [NULL] being 0. *)
Definition LibGpsPtr := Z.
Definition NULL : LibGpsPtr := 0.

(** The collaborators: the two predicates and the default constructor of
    [Geoposition], the two error codes named in this file, the methods and
    the destructor of [LibGps], which act on the state [Host] of whatever
    is behind the library, and the build's debug assertions. *)
Class Platform `{Arithmetic} : Type := {
  IsValidFix : Geoposition -> bool;
  IsInitialized : Geoposition -> bool;
  Geoposition_default : Geoposition;
  ERROR_CODE_NONE : Z;
  ERROR_CODE_POSITION_UNAVAILABLE : Z;
  Host : Type;
  LibGps_Start : LibGpsPtr -> string -> Host -> (bool * string) * Host;
  LibGps_Poll : LibGpsPtr -> Host -> bool * Host;
  LibGps_GetPosition : LibGpsPtr -> Geoposition -> Host -> Geoposition * Host;
  LibGps_Stop : LibGpsPtr -> Host -> Host;
  LibGps_delete : LibGpsPtr -> Host -> Host;
  DCHECK_IS_ON : bool
}.

(** A task waiting in the message loop.  A task made by [task_factory_]
    stays in the loop when the factory revokes it, but no longer does
    anything: it is not [live]. *)
Record PendingTask : Type := {
  delay_ms : Z;
  live : bool
}.

Inductive Event : Type :=
| LogWarning (message : string)
| ListenersUpdated.

(** The provider's members, the message loop of the current thread, the
    host and the events recorded so far. *)
Record State `{Platform} : Type := {
  libgps_factory_ : Host -> LibGpsPtr * Host;
  gps_ : LibGpsPtr;
  position_ : Geoposition;
  error_msg_ : string;
  host : Host;
  message_loop : list PendingTask;
  events : list Event
}.

Section Provider.
Context `{Platform}.

(** [None] is the process brought down: a failed debug assertion or a
    call through a null [gps_]. *)
Definition M (A : Type) : Type := State -> option (A * State).

Definition ret {A : Type} (a : A) : M A := fun s => Some (a, s).

Definition bind {A B : Type} (m : M A) (k : A -> M B) : M B :=
  fun s =>
    match m s with
    | Some (a, s') => k a s'
    | None => None
    end.

Definition abort {A : Type} : M A := fun _ => None.

Declare Scope gps_scope.
Notation "x <- m ;; k" := (bind m (fun x => k))
  (at level 100, m at next level, right associativity) : gps_scope.
Notation "m ;; k" := (bind m (fun _ => k))
  (at level 100, right associativity) : gps_scope.
Local Open Scope gps_scope.

Definition get : M State := fun s => Some (s, s).

Definition modify (f : State -> State) : M unit := fun s => Some (tt, f s).

Definition set_gps (p : LibGpsPtr) (s : State) : State :=
  {| libgps_factory_ := libgps_factory_ s; gps_ := p;
     position_ := position_ s; error_msg_ := error_msg_ s; host := host s;
     message_loop := message_loop s; events := events s |}.

Definition set_position (p : Geoposition) (s : State) : State :=
  {| libgps_factory_ := libgps_factory_ s; gps_ := gps_ s;
     position_ := p; error_msg_ := error_msg_ s; host := host s;
     message_loop := message_loop s; events := events s |}.

Definition set_error_msg (m : string) (s : State) : State :=
  {| libgps_factory_ := libgps_factory_ s; gps_ := gps_ s;
     position_ := position_ s; error_msg_ := m; host := host s;
     message_loop := message_loop s; events := events s |}.

Definition set_host (h : Host) (s : State) : State :=
  {| libgps_factory_ := libgps_factory_ s; gps_ := gps_ s;
     position_ := position_ s; error_msg_ := error_msg_ s; host := h;
     message_loop := message_loop s; events := events s |}.

Definition set_message_loop (l : list PendingTask) (s : State) : State :=
  {| libgps_factory_ := libgps_factory_ s; gps_ := gps_ s;
     position_ := position_ s; error_msg_ := error_msg_ s; host := host s;
     message_loop := l; events := events s |}.

Definition emit (e : Event) : M unit :=
  modify (fun s =>
    {| libgps_factory_ := libgps_factory_ s; gps_ := gps_ s;
       position_ := position_ s; error_msg_ := error_msg_ s; host := host s;
       message_loop := message_loop s; events := events s ++ [e] |}).

(** A call into the host: it changes the [host] part of the state only. *)
Definition hostcall {A : Type} (f : Host -> A * Host) : M A :=
  fun s => let (a, h) := f (host s) in Some (a, set_host h s).

Definition DCHECK (condition : bool) : M unit :=
  fun s => if DCHECK_IS_ON && negb condition then None else Some (tt, s).

(** [gps_->]: the address held by [gps_], which must not be null. *)
Definition gps_arrow : M LibGpsPtr :=
  fun s => if gps_ s =? NULL then None else Some (gps_ s, s).

Definition set_error_code (e : Z) (p : Geoposition) : Geoposition :=
  {| latitude := latitude p; longitude := longitude p; error_code := e;
     rest := rest p |}.

(** As per the gpsd documentation, poll twice per second. *)
Definition kPollPeriodMovingMillis : Z := 500.
(** Poll less frequently whilst stationary. *)
Definition kPollPeriodStationaryMillis : Z := kPollPeriodMovingMillis * 3.
(** GPS reading must differ by more than this amount to be considered
    movement. *)
Definition kMovementThresholdMeters : Z := 20.

Definition PositionsDifferSiginificantly (position_1 position_2 : Geoposition)
  : M bool :=
  let pos_1_valid := IsValidFix position_1 in
  if negb (Bool.eqb pos_1_valid (IsValidFix position_2)) then ret true
  else if negb pos_1_valid then
    DCHECK (negb (IsValidFix position_2)) ;;
    ret false
  else
    let delta :=
      std_sqrt
        (double_add
           (std_pow (std_fabs (double_sub (latitude position_1)
                                 (latitude position_2))) 2)
           (std_pow (std_fabs (double_sub (longitude position_1)
                                 (longitude position_2))) 2)) in
    (* Convert to meters. 1 minute of arc of latitude (or longitude at the
       equator) is 1 nautical mile or 1852m. *)
    let delta := double_mul delta (double_of_int (60 * 1852)) in
    ret (double_gt delta (double_of_int kMovementThresholdMeters)).

(** [task_factory_.RevokeAll()] *)
Definition RevokeAll (l : list PendingTask) : list PendingTask :=
  map (fun t => {| delay_ms := delay_ms t; live := false |}) l.

(** [MessageLoop::current()->PostDelayedTask(FROM_HERE, task, interval)]
    for a task fresh from [task_factory_]. *)
Definition PostDelayedTask (interval : Z) (l : list PendingTask)
  : list PendingTask :=
  l ++ [{| delay_ms := interval; live := true |}].

Definition ScheduleNextGpsPoll (interval : Z) : M unit :=
  modify (fun s => set_message_loop (RevokeAll (message_loop s)) s) ;;
  modify (fun s =>
            set_message_loop (PostDelayedTask interval (message_loop s)) s).

(** [gps_.reset(p)]: the object held before is deleted unless it is [p]
    itself or there is none. *)
Definition gps_reset (p : LibGpsPtr) : M unit :=
  fun s =>
    if p =? gps_ s then Some (tt, s)
    else
      let h := if gps_ s =? NULL then host s else LibGps_delete (gps_ s) (host s) in
      Some (tt, set_gps p (set_host h s)).

Definition StartProvider : M bool :=
  modify (fun s =>
            set_position
              (set_error_code ERROR_CODE_POSITION_UNAVAILABLE (position_ s))
              s) ;;
  s0 <- get ;;
  p <- hostcall (libgps_factory_ s0) ;;
  gps_reset p ;;
  s1 <- get ;;
  if gps_ s1 =? NULL then
    emit (LogWarning "libgps.so could not be loaded") ;;
    (* TODO(joth): return false once GeolocationArbitratorImpl can cope
       with it. *)
    ret true
  else
    gps <- gps_arrow ;;
    started <- hostcall (LibGps_Start gps (error_msg_ s1)) ;;
    modify (set_error_msg (snd started)) ;;
    if negb (fst started) then
      emit (LogWarning ("Couldn't start GPS provider: " ++ snd started)) ;;
      (* TODO(joth): return false once GeolocationArbitratorImpl can cope
         with it. *)
      ret true
    else
      ScheduleNextGpsPoll 0 ;;
      ret true.

(** [GetPosition(Geoposition* position)]: the argument is what the pointer
    refers to, [None] for a null pointer; the result is what it refers to
    afterwards. *)
Definition GetPosition (position : option Geoposition) : M Geoposition :=
  DCHECK (match position with Some _ => true | None => false end) ;;
  match position with
  | None => abort
  | Some _ =>
      s <- get ;;
      let position := position_ s in
      DCHECK (IsInitialized position) ;;
      ret position
  end.

Definition UpdatePosition : M unit := ScheduleNextGpsPoll 0.

Definition OnPermissionGranted (requesting_frame : string) : M unit :=
  ret tt.

Definition UpdateListeners : M unit := emit ListenersUpdated.

Definition DoGpsPollTask : M unit :=
  gps <- gps_arrow ;;
  polled <- hostcall (LibGps_Poll gps) ;;
  if negb polled then
    gps <- gps_arrow ;;
    hostcall (fun h => (tt, LibGps_Stop gps h))
  else
    let new_position := Geoposition_default in
    gps <- gps_arrow ;;
    new_position <- hostcall (LibGps_GetPosition gps new_position) ;;
    DCHECK (IsInitialized new_position) ;;
    s <- get ;;
    differ <- PositionsDifferSiginificantly (position_ s) new_position ;;
    ScheduleNextGpsPoll (if differ then kPollPeriodMovingMillis
                         else kPollPeriodStationaryMillis) ;;
    if differ || negb (error_code new_position =? ERROR_CODE_NONE) then
      (* Update if the new location is interesting or we have an error to
         report. *)
      modify (set_position new_position) ;;
      UpdateListeners
    else ret tt.

(** The tasks of the message loop that will still do something. *)
Definition live_tasks (s : State) : list PendingTask :=
  filter live (message_loop s).

(** What the host answers during [StartProvider] run from [s]: the address
    the factory returns, the host once [gps_] has been reset to it, and the
    answer of [LibGps::Start]. *)
Definition loaded_ptr (s : State) : LibGpsPtr :=
  fst (libgps_factory_ s (host s)).

Definition host_after_reset (s : State) : Host :=
  let h := snd (libgps_factory_ s (host s)) in
  if loaded_ptr s =? gps_ s then h
  else if gps_ s =? NULL then h
  else LibGps_delete (gps_ s) h.

Definition start_answer (s : State) : bool * string :=
  fst (LibGps_Start (loaded_ptr s) (error_msg_ s) (host_after_reset s)).

(** What the host answers during [DoGpsPollTask] run from [s]: whether the
    poll succeeded and the position read after it. *)
Definition poll_answer (s : State) : bool :=
  fst (LibGps_Poll (gps_ s) (host s)).

Definition polled_position (s : State) : Geoposition :=
  fst (LibGps_GetPosition (gps_ s) Geoposition_default
         (snd (LibGps_Poll (gps_ s) (host s)))).

(** The calls a client or the message loop makes on the provider, and a
    sequence of them run one after the other. *)
Inductive Call : Type :=
| CallStartProvider
| CallGetPosition (position : option Geoposition)
| CallUpdatePosition
| CallOnPermissionGranted (requesting_frame : string)
| CallDoGpsPollTask.

Definition run_call (c : Call) : M unit :=
  match c with
  | CallStartProvider => _ <- StartProvider ;; ret tt
  | CallGetPosition position => _ <- GetPosition position ;; ret tt
  | CallUpdatePosition => UpdatePosition
  | CallOnPermissionGranted requesting_frame =>
      OnPermissionGranted requesting_frame
  | CallDoGpsPollTask => DoGpsPollTask
  end.

Fixpoint run_calls (calls : list Call) : M unit :=
  match calls with
  | [] => ret tt
  | c :: rest => run_call c ;; run_calls rest
  end.

End Provider.

(** A concrete platform to run the provider on: coordinates in whole
    arc minutes, integer arithmetic for the doubles, and a host that is
    the number of calls the library has served. *)
Definition sample_arithmetic : Arithmetic :=
  {| double := Z;
     double_of_int := fun z => z;
     double_sub := Z.sub;
     double_add := Z.add;
     double_mul := Z.mul;
     double_gt := Z.gtb;
     std_fabs := Z.abs;
     std_pow := Z.pow;
     std_sqrt := Z.sqrt;
     GeopositionRest := unit |}.

Definition sample_fix (lat lon code : Z) : @Geoposition sample_arithmetic :=
  @Build_Geoposition sample_arithmetic lat lon code tt.

(** The library loads at address [loaded] (0 when it fails to), starts and
    polls as told, and reports [reading]; a fix is valid when its error code
    is 0. *)
Definition sample_platform (dcheck start_ok poll_ok : bool)
  (reading : @Geoposition sample_arithmetic)
  : @Platform sample_arithmetic :=
  {| IsValidFix := fun p => error_code p =? 0;
     IsInitialized := fun _ => true;
     Geoposition_default := sample_fix 0 0 2;
     ERROR_CODE_NONE := 0;
     ERROR_CODE_POSITION_UNAVAILABLE := 2;
     Host := nat;
     LibGps_Start := fun _ msg h =>
       ((start_ok, if start_ok then msg else "no gpsd"%string), S h);
     LibGps_Poll := fun _ h => (poll_ok, S h);
     LibGps_GetPosition := fun _ _ h => (reading, S h);
     LibGps_Stop := fun _ h => S h;
     LibGps_delete := fun _ h => S h;
     DCHECK_IS_ON := dcheck |}.

Definition sample_state (P : @Platform sample_arithmetic) (h : @Host _ P)
  (loaded gps : LibGpsPtr) (position : @Geoposition sample_arithmetic)
  (loop : list PendingTask) : @State _ P :=
  {| libgps_factory_ := fun h => (loaded, h);
     gps_ := gps; position_ := position; error_msg_ := ""%string;
     host := h; message_loop := loop; events := [] |}.

End Gps.

(** * Properties *)

(** ** Basic facts *)

Lemma reason_eqb_eq (a b : DownloadInterruptReason) :
  reason_eqb a b = true <-> a = b.
Proof.
  split.
  - destruct a, b; simpl; intro E; try discriminate E; try reflexivity.
    apply Z.eqb_eq in E. now subst.
  - intros ->. destruct b; simpl; trivial. apply Z.eqb_refl.
Qed.

Lemma reason_eqb_NONE (r : DownloadInterruptReason) :
  reason_eqb r DOWNLOAD_INTERRUPT_REASON_NONE = false <->
  r <> DOWNLOAD_INTERRUPT_REASON_NONE.
Proof.
  rewrite <- (reason_eqb_eq r DOWNLOAD_INTERRUPT_REASON_NONE).
  destruct (reason_eqb r DOWNLOAD_INTERRUPT_REASON_NONE); split; congruence.
Qed.

Lemma SUCCEEDED_FAILED (hr : HRESULT) : SUCCEEDED hr = negb (FAILED hr).
Proof. unfold SUCCEEDED, FAILED. destruct (Z.ltb_spec hr 0); lia. Qed.

(** The two statuses the scanner's classifier knows, and one it does not,
    are negative once read as a signed [HRESULT]. *)
Example HRESULT_constants :
  E_FAIL = -2147467259 /\ INET_E_SECURITY_PROBLEM = -2146697202 /\
  E_ACCESSDENIED = -2147024891.
Proof. repeat split; reflexivity. Qed.

Example HRESULT_constants_fail :
  FAILED E_FAIL = true /\ FAILED INET_E_SECURITY_PROBLEM = true /\
  FAILED E_ACCESSDENIED = true /\ SUCCEEDED S_OK = true.
Proof. repeat split; reflexivity. Qed.

Lemma to_int32_in_range (z : Z) : int32_range (to_int32 z).
Proof.
  unfold int32_range, to_int32.
  pose proof (Z.mod_pos_bound (z + 2 ^ 31) (2 ^ 32) ltac:(lia)). lia.
Qed.

Lemma string_append_assoc (a b c : string) :
  ((a ++ b) ++ c = a ++ (b ++ c))%string.
Proof. induction a as [|ch a IH]; simpl; [reflexivity|now rewrite IH]. Qed.

(** Both strings handed to [SHFileOperation] end in two NUL characters,
    and the flag word is the union of the five flags. *)
Lemma move_info_for_strings (this : BaseFile) (new_path : FilePath) :
  pFrom (move_info_for this new_path) =
    Some (full_path_ this ++ NUL ++ NUL)%string /\
  pTo (move_info_for this new_path) = Some (new_path ++ NUL ++ NUL)%string /\
  wFunc (move_info_for this new_path) = FO_MOVE /\
  fFlags (move_info_for this new_path) = 0xE14 /\
  fAnyOperationsAborted (move_info_for this new_path) = 0.
Proof.
  unfold move_info_for, c_str; simpl.
  repeat split; f_equal; apply string_append_assoc.
Qed.

(** ** The [switch] of [MapShFileOperationCodes] *)

Lemma switch_return_sound {A : Type} (cases : list (Z * A)) code r :
  switch_return cases code = Some r -> In (code, r) cases.
Proof.
  induction cases as [|[label a] rest IH]; simpl; [discriminate|].
  destruct (Z.eqb_spec code label) as [->|_].
  - intros [= ->]. now left.
  - intro E. right. auto.
Qed.

Lemma switch_return_complete {A : Type} (cases : list (Z * A)) code r :
  NoDup (map fst cases) ->
  In (code, r) cases -> switch_return cases code = Some r.
Proof.
  induction cases as [|[label a] rest IH]; simpl; [contradiction|].
  intros ND [E|HIn].
  - injection E as -> ->. now rewrite Z.eqb_refl.
  - inversion ND as [|? ? Hnotin ND']; subst.
    destruct (Z.eqb_spec code label) as [->|_]; [|auto].
    exfalso. apply Hnotin. change label with (fst (label, r)).
    now apply in_map.
Qed.

Lemma switch_return_none {A : Type} (cases : list (Z * A)) code :
  switch_return cases code = None -> forall r, ~ In (code, r) cases.
Proof.
  induction cases as [|[label a] rest IH]; simpl; [tauto|].
  destruct (Z.eqb_spec code label) as [->|Hne]; [discriminate|].
  intros E r [[= <- _]|HIn]; [congruence|]. exact (IH E r HIn).
Qed.

(** No case label occurs twice, as C++ demands of a [switch]. *)
Lemma ShFileOperationCases_labels_distinct :
  NoDup (map fst ShFileOperationCases).
Proof.
  unfold ShFileOperationCases; simpl.
  repeat (constructor; [simpl; intuition discriminate|]).
  constructor.
Qed.

Lemma MapShFileOperationCodes_case `{ErrorTranslator} code reason :
  In (code, reason) ShFileOperationCases ->
  MapShFileOperationCodes code = reason.
Proof.
  intro HIn. unfold MapShFileOperationCodes.
  now rewrite (switch_return_complete _ _ _
                 ShFileOperationCases_labels_distinct HIn).
Qed.

(** C5.  A result code that has a case in the table of pre-Win32 codes is
    given the reason of that case, whatever the generic translator would
    make of the same number: two translators always agree on it.  In
    particular 0x71 is [FILE_FAILED] and 0x79 is [FILE_NAME_TOO_LONG]. *)
Theorem legacy_table_takes_precedence :
  (forall (T : ErrorTranslator) (code : Z) (reason : DownloadInterruptReason),
      In (code, reason) ShFileOperationCases ->
      @MapShFileOperationCodes T code = reason) /\
  (forall (T1 T2 : ErrorTranslator) (code : Z) (reason : DownloadInterruptReason),
      In (code, reason) ShFileOperationCases ->
      @MapShFileOperationCodes T1 code = @MapShFileOperationCodes T2 code) /\
  (forall T : ErrorTranslator,
      @MapShFileOperationCodes T 0x71 = DOWNLOAD_INTERRUPT_REASON_FILE_FAILED /\
      @MapShFileOperationCodes T 0x79 =
        DOWNLOAD_INTERRUPT_REASON_FILE_NAME_TOO_LONG).
Proof.
  split; [|split].
  - intros T code reason HIn. now apply MapShFileOperationCodes_case.
  - intros T1 T2 code reason HIn.
    rewrite (@MapShFileOperationCodes_case T1 _ _ HIn).
    now rewrite (@MapShFileOperationCodes_case T2 _ _ HIn).
  - intro T. split; reflexivity.
Qed.

(** The table wins over [sample_translator] at 0x79, which the translator
    alone would forward as a passthrough category. *)
Lemma legacy_table_takes_precedence_witness :
  In (0x79, DOWNLOAD_INTERRUPT_REASON_FILE_NAME_TOO_LONG) ShFileOperationCases /\
  @ConvertNetErrorToInterruptReason sample_translator
    (@MapSystemError sample_translator 0x79)
    (@DOWNLOAD_INTERRUPT_FROM_DISK sample_translator) =
    DOWNLOAD_INTERRUPT_REASON_PASSTHROUGH (-121) /\
  @MapShFileOperationCodes sample_translator 0x79 =
    DOWNLOAD_INTERRUPT_REASON_FILE_NAME_TOO_LONG.
Proof.
  assert (HIn : In (0x79, DOWNLOAD_INTERRUPT_REASON_FILE_NAME_TOO_LONG)
                  ShFileOperationCases) by (simpl; tauto).
  split; [exact HIn|]. split; [reflexivity|].
  exact (proj1 legacy_table_takes_precedence sample_translator 0x79
           DOWNLOAD_INTERRUPT_REASON_FILE_NAME_TOO_LONG HIn).
Defined.

(** C6.  [MapShFileOperationCodes] is total on the 32-bit integers: every
    code is given a reason, the reason of its case when it has one in the
    table and the generic translator's answer when it has none. *)
Theorem MapShFileOperationCodes_total :
  forall (T : ErrorTranslator) (code : Z),
    int32_range code ->
    exists reason : DownloadInterruptReason,
      MapShFileOperationCodes code = reason /\
      (In (code, reason) ShFileOperationCases \/
       (forall r, ~ In (code, r) ShFileOperationCases) /\
       reason = ConvertNetErrorToInterruptReason
                  (MapSystemError code) DOWNLOAD_INTERRUPT_FROM_DISK).
Proof.
  intros T code _. unfold MapShFileOperationCodes.
  destruct (switch_return ShFileOperationCases code) as [r|] eqn:E.
  - exists r. split; [reflexivity|]. left. now apply switch_return_sound.
  - eexists. split; [reflexivity|]. right. split; [|reflexivity].
    now apply switch_return_none.
Qed.

Lemma MapShFileOperationCodes_total_witness :
  int32_range 5 /\
  exists reason : DownloadInterruptReason,
    @MapShFileOperationCodes sample_translator 5 = reason /\
    (In (5, reason) ShFileOperationCases \/
     (forall r, ~ In (5, r) ShFileOperationCases) /\
     reason = @ConvertNetErrorToInterruptReason sample_translator
                (@MapSystemError sample_translator 5)
                (@DOWNLOAD_INTERRUPT_FROM_DISK sample_translator)).
Proof.
  assert (R : int32_range 5) by (unfold int32_range; lia).
  split; [exact R|].
  exact (MapShFileOperationCodes_total sample_translator 5 R).
Defined.

(** ** What one run of each method does *)

Lemma added_events_app `{Environment} {A : Type} (s : State) (a : A)
  (os' : OS) (new : list Event) :
  added_events s (Some (a, {| os_state := os'; events := events s ++ new |}))
  = Some new.
Proof.
  unfold added_events; simpl. f_equal.
  rewrite skipn_app, skipn_all, Nat.sub_diag. reflexivity.
Qed.

Section Runs.
Context `{ErrorTranslator} `{Environment}.

Lemma MoveFileAndAdjustPermissions_run this new_path s :
  relocate_entry_ok ->
  let code := relocation_code this new_path s in
  let reason :=
    relocation_reason code (relocation_aborted this new_path s) in
  MoveFileAndAdjustPermissions this new_path s =
  Some (reason,
        {| os_state :=
             snd (SHFileOperation (move_info_for this new_path) (os_state s));
           events :=
             events s ++
             if reason_eqb reason DOWNLOAD_INTERRUPT_REASON_NONE then []
             else [InterruptReasonLogged "SHFileOperation" code reason] |}).
Proof.
  intros Hentry.
  unfold MoveFileAndAdjustPermissions, relocation_reason, relocation_code,
    relocation_aborted, AssertIOAllowed, DCHECK, LogInterruptReason,
    bind, ret, syscall, emit.
  assert (Hio : DCHECK_IS_ON && negb ThreadRestrictions_io_allowed = false).
  { unfold relocate_entry_ok in Hentry.
    destruct DCHECK_IS_ON; [|reflexivity].
    now rewrite (Hentry eq_refl). }
  rewrite Hio.
  destruct (SHFileOperation (move_info_for this new_path) (os_state s))
    as [[result move_info] os']; simpl.
  destruct (result =? 0); simpl.
  - destruct (fAnyOperationsAborted move_info =? 0); simpl.
    + now rewrite app_nil_r.
    + reflexivity.
  - destruct (reason_eqb (MapShFileOperationCodes result)
                DOWNLOAD_INTERRUPT_REASON_NONE); simpl.
    + now rewrite app_nil_r.
    + reflexivity.
Qed.

Lemma AnnotateWithSourceInformation_run this s :
  annotate_entry_ok this ->
  let hr := inspection_status this s in
  let os' :=
    snd (ScanAndSaveDownloadedFile (full_path_ this) (source_url_ this)
           (os_state s)) in
  AnnotateWithSourceInformation this s =
  if exists_after_inspection this s then
    Some (DOWNLOAD_INTERRUPT_REASON_NONE,
          {| os_state := os';
             events := events s ++ annotate_events_intact |})
  else if DCHECK_IS_ON && negb (FAILED hr) then None
  else
    let reason := MapScanAndSaveErrorCodeToInterruptReason hr in
    Some (if reason_eqb reason DOWNLOAD_INTERRUPT_REASON_NONE then
            DOWNLOAD_INTERRUPT_REASON_FILE_SECURITY_CHECK_FAILED
          else reason,
          {| os_state := os';
             events := events s ++ annotate_events_missing hr |}).
Proof.
  intros Hentry.
  unfold AnnotateWithSourceInformation, exists_after_inspection,
    inspection_status, annotate_events_intact, annotate_events_missing,
    RecordDownloadCount, LogInterruptReason, DCHECK, bind, ret, syscall,
    query, emit.
  unfold annotate_entry_ok in Hentry.
  assert (Hthread :
            DCHECK_IS_ON &&
            negb (BrowserThread_CurrentlyOn BrowserThread_FILE) = false).
  { destruct DCHECK_IS_ON; [|reflexivity].
    now rewrite (proj1 (Hentry eq_refl)). }
  assert (Hdet : DCHECK_IS_ON && negb (negb (detached_ this)) = false).
  { destruct DCHECK_IS_ON; [|reflexivity].
    now rewrite (proj2 (Hentry eq_refl)). }
  rewrite Hthread, Hdet; simpl.
  destruct (ScanAndSaveDownloadedFile (full_path_ this) (source_url_ this)
              (os_state s)) as [hr os']; simpl.
  destruct (PathExists (full_path_ this) os'); simpl.
  - now rewrite <- app_assoc.
  - destruct (DCHECK_IS_ON && negb (FAILED hr)); [reflexivity|].
    destruct (reason_eqb (MapScanAndSaveErrorCodeToInterruptReason hr)
                DOWNLOAD_INTERRUPT_REASON_NONE); simpl;
      now rewrite <- !app_assoc.
Qed.

Lemma MapScanAndSave_NONE_iff (hr : HRESULT) :
  MapScanAndSaveErrorCodeToInterruptReason hr =
    DOWNLOAD_INTERRUPT_REASON_NONE <-> SUCCEEDED hr = true.
Proof.
  unfold MapScanAndSaveErrorCodeToInterruptReason.
  destruct (SUCCEEDED hr); [tauto|].
  destruct (hr =? INET_E_SECURITY_PROBLEM), (hr =? E_FAIL);
    split; discriminate.
Qed.
End Runs.

(** A run that returns has passed the entry assertions. *)
Lemma relocate_returns_entry_ok `{ErrorTranslator} `{Environment}
  (this : BaseFile) (new_path : FilePath) (s : State) :
  MoveFileAndAdjustPermissions this new_path s <> None -> relocate_entry_ok.
Proof.
  unfold relocate_entry_ok, MoveFileAndAdjustPermissions, AssertIOAllowed,
    DCHECK, bind.
  intros Hrun Hon. rewrite Hon in Hrun.
  destruct ThreadRestrictions_io_allowed; [reflexivity|].
  simpl in Hrun. congruence.
Qed.

Lemma annotate_returns_entry_ok `{Environment} (this : BaseFile) (s : State) :
  AnnotateWithSourceInformation this s <> None -> annotate_entry_ok this.
Proof.
  unfold annotate_entry_ok, AnnotateWithSourceInformation, DCHECK, bind.
  intros Hrun Hon. rewrite Hon in Hrun.
  destruct (BrowserThread_CurrentlyOn BrowserThread_FILE);
    [|simpl in Hrun; congruence].
  destruct (detached_ this); [simpl in Hrun; congruence|].
  split; reflexivity.
Qed.

(** ** The relocate step *)

(** C4.  When the relocation primitive returns 0 but leaves its
    any-operations-aborted flag set, the relocate step returns
    [FILE_FAILED], not [NONE]; a nonzero result code is given to
    [MapShFileOperationCodes]; a zero result code with the flag clear
    yields [NONE]. *)
Theorem relocate_interprets_result :
  forall (T : ErrorTranslator) (E : Environment)
         (this : BaseFile) (new_path : FilePath) (s : State),
    relocate_entry_ok ->
    let code := relocation_code this new_path s in
    let aborted := relocation_aborted this new_path s in
    let outcome := returned (MoveFileAndAdjustPermissions this new_path s) in
    (code = 0 -> aborted = true ->
     outcome = Some DOWNLOAD_INTERRUPT_REASON_FILE_FAILED /\
     outcome <> Some DOWNLOAD_INTERRUPT_REASON_NONE) /\
    (code <> 0 -> outcome = Some (MapShFileOperationCodes code)) /\
    (code = 0 -> aborted = false ->
     outcome = Some DOWNLOAD_INTERRUPT_REASON_NONE).
Proof.
  intros T E this new_path s Hentry code aborted outcome.
  subst outcome.
  rewrite (MoveFileAndAdjustPermissions_run this new_path s Hentry).
  fold code aborted. clearbody code aborted.
  unfold returned, relocation_reason; simpl.
  split; [|split].
  - intros -> ->. split; [reflexivity|discriminate].
  - intros Hne. apply Z.eqb_neq in Hne. now rewrite Hne.
  - intros -> ->. reflexivity.
Qed.

Lemma relocate_interprets_result_witness :
  @relocate_entry_ok (sample_environment true 0 1 S_OK false) /\
  sample_relocation_code true 0 1 = 0 /\
  sample_relocation_aborted true 0 1 = true /\
  returned (sample_relocate true 0 1) =
    Some DOWNLOAD_INTERRUPT_REASON_FILE_FAILED.
Proof.
  pose (E := sample_environment true 0 1 S_OK false).
  assert (Hentry : @relocate_entry_ok E) by (intro; reflexivity).
  split; [exact Hentry|]. split; [reflexivity|]. split; [reflexivity|].
  exact (proj1 (proj1 (relocate_interprets_result sample_translator E
                         sample_file sample_target
                         (sample_state E sample_disk) Hentry)
                  eq_refl eq_refl)).
Defined.

(** ** The annotate step *)

(** C3.  When the inspection call fails but the destination file is still
    there once it has returned, the annotate step returns [NONE]. *)
Theorem annotate_lenient_when_file_remains :
  forall (E : Environment) (this : BaseFile) (s : State),
    annotate_entry_ok this ->
    FAILED (inspection_status this s) = true ->
    exists_after_inspection this s = true ->
    returned (AnnotateWithSourceInformation this s) =
      Some DOWNLOAD_INTERRUPT_REASON_NONE.
Proof.
  intros E this s Hentry _ Hexists.
  rewrite (AnnotateWithSourceInformation_run this s Hentry), Hexists.
  reflexivity.
Qed.

Lemma annotate_lenient_when_file_remains_witness :
  FAILED (sample_inspection_status true E_ACCESSDENIED false) = true /\
  sample_exists_after true E_ACCESSDENIED false = true /\
  returned (sample_annotate true E_ACCESSDENIED false) =
    Some DOWNLOAD_INTERRUPT_REASON_NONE.
Proof.
  pose (E := sample_environment true 0 0 E_ACCESSDENIED false).
  pose (s := sample_state E sample_disk).
  assert (Hentry : @annotate_entry_ok E sample_file)
    by (intro; split; reflexivity).
  split; [reflexivity|]. split; [reflexivity|].
  exact (annotate_lenient_when_file_remains E sample_file s Hentry
           eq_refl eq_refl).
Defined.

(** The reason of a failed inspection whose file is gone. *)
Lemma annotate_file_destroyed `{Environment} (this : BaseFile) (s : State) :
  annotate_entry_ok this ->
  FAILED (inspection_status this s) = true ->
  exists_after_inspection this s = false ->
  returned (AnnotateWithSourceInformation this s) =
    Some (MapScanAndSaveErrorCodeToInterruptReason (inspection_status this s)) /\
  MapScanAndSaveErrorCodeToInterruptReason (inspection_status this s) <>
    DOWNLOAD_INTERRUPT_REASON_NONE.
Proof.
  intros Hentry Hfailed Hgone.
  assert (Hne : MapScanAndSaveErrorCodeToInterruptReason
                  (inspection_status this s) <>
                DOWNLOAD_INTERRUPT_REASON_NONE).
  { rewrite MapScanAndSave_NONE_iff, SUCCEEDED_FAILED, Hfailed.
    discriminate. }
  split; [|exact Hne].
  rewrite (AnnotateWithSourceInformation_run this s Hentry), Hgone, Hfailed.
  rewrite andb_false_r. cbv zeta.
  apply reason_eqb_NONE in Hne. now rewrite Hne.
Qed.

(** C2.  When the inspection call fails and the destination file is gone
    once it has returned, the annotate step never returns [NONE]: it
    returns [FILE_BLOCKED], [FILE_VIRUS_INFECTED] or
    [FILE_SECURITY_CHECK_FAILED]. *)
Theorem annotate_interrupts_when_file_destroyed :
  forall (E : Environment) (this : BaseFile) (s : State),
    annotate_entry_ok this ->
    FAILED (inspection_status this s) = true ->
    exists_after_inspection this s = false ->
    exists reason : DownloadInterruptReason,
      returned (AnnotateWithSourceInformation this s) = Some reason /\
      reason <> DOWNLOAD_INTERRUPT_REASON_NONE /\
      (reason = DOWNLOAD_INTERRUPT_REASON_FILE_BLOCKED \/
       reason = DOWNLOAD_INTERRUPT_REASON_FILE_VIRUS_INFECTED \/
       reason = DOWNLOAD_INTERRUPT_REASON_FILE_SECURITY_CHECK_FAILED).
Proof.
  intros E this s Hentry Hfailed Hgone.
  destruct (annotate_file_destroyed this s Hentry Hfailed Hgone) as [Hret Hne].
  eexists. split; [exact Hret|]. split; [exact Hne|].
  revert Hne. unfold MapScanAndSaveErrorCodeToInterruptReason.
  destruct (SUCCEEDED (inspection_status this s)); [congruence|].
  destruct (inspection_status this s =? INET_E_SECURITY_PROBLEM); [tauto|].
  destruct (inspection_status this s =? E_FAIL); tauto.
Qed.

Lemma annotate_interrupts_when_file_destroyed_witness :
  FAILED (sample_inspection_status true E_ACCESSDENIED true) = true /\
  sample_exists_after true E_ACCESSDENIED true = false /\
  exists reason : DownloadInterruptReason,
    returned (sample_annotate true E_ACCESSDENIED true) = Some reason /\
    reason <> DOWNLOAD_INTERRUPT_REASON_NONE /\
    (reason = DOWNLOAD_INTERRUPT_REASON_FILE_BLOCKED \/
     reason = DOWNLOAD_INTERRUPT_REASON_FILE_VIRUS_INFECTED \/
     reason = DOWNLOAD_INTERRUPT_REASON_FILE_SECURITY_CHECK_FAILED).
Proof.
  pose (E := sample_environment true 0 0 E_ACCESSDENIED true).
  pose (s := sample_state E sample_disk).
  assert (Hentry : @annotate_entry_ok E sample_file)
    by (intro; split; reflexivity).
  split; [reflexivity|]. split; [reflexivity|].
  exact (annotate_interrupts_when_file_destroyed E sample_file s Hentry
           eq_refl eq_refl).
Defined.

(** C7.  With a failing status and the file gone, the status
    [INET_E_SECURITY_PROBLEM] gives [FILE_BLOCKED], the status [E_FAIL]
    gives [FILE_VIRUS_INFECTED], and every other failing status gives
    [FILE_SECURITY_CHECK_FAILED]. *)
Theorem annotate_classifies_destroyed_file :
  forall (E : Environment) (this : BaseFile) (s : State),
    annotate_entry_ok this ->
    FAILED (inspection_status this s) = true ->
    exists_after_inspection this s = false ->
    let hr := inspection_status this s in
    let outcome := returned (AnnotateWithSourceInformation this s) in
    (hr = INET_E_SECURITY_PROBLEM ->
     outcome = Some DOWNLOAD_INTERRUPT_REASON_FILE_BLOCKED) /\
    (hr = E_FAIL ->
     outcome = Some DOWNLOAD_INTERRUPT_REASON_FILE_VIRUS_INFECTED) /\
    (hr <> INET_E_SECURITY_PROBLEM -> hr <> E_FAIL ->
     outcome = Some DOWNLOAD_INTERRUPT_REASON_FILE_SECURITY_CHECK_FAILED).
Proof.
  intros E this s Hentry Hfailed Hgone hr outcome.
  destruct (annotate_file_destroyed this s Hentry Hfailed Hgone) as [Hret _].
  subst outcome. rewrite Hret. fold hr.
  assert (Hs : SUCCEEDED hr = false)
    by (rewrite SUCCEEDED_FAILED; subst hr; now rewrite Hfailed).
  clearbody hr.
  unfold MapScanAndSaveErrorCodeToInterruptReason. rewrite Hs.
  split; [|split].
  - intros ->. reflexivity.
  - intros ->. reflexivity.
  - intros H1 H2. apply Z.eqb_neq in H1, H2. now rewrite H1, H2.
Qed.

Lemma annotate_classifies_destroyed_file_witness :
  FAILED (sample_inspection_status true INET_E_SECURITY_PROBLEM true) = true /\
  sample_exists_after true INET_E_SECURITY_PROBLEM true = false /\
  returned (sample_annotate true INET_E_SECURITY_PROBLEM true) =
    Some DOWNLOAD_INTERRUPT_REASON_FILE_BLOCKED.
Proof.
  pose (E := sample_environment true 0 0 INET_E_SECURITY_PROBLEM true).
  pose (s := sample_state E sample_disk).
  assert (Hentry : @annotate_entry_ok E sample_file)
    by (intro; split; reflexivity).
  split; [reflexivity|]. split; [reflexivity|].
  exact (proj1 (annotate_classifies_destroyed_file E sample_file s Hentry
                  eq_refl eq_refl) eq_refl).
Defined.

(** C10, the claim as stated fails: with debug assertions compiled in,
    an inspection that answers [S_OK] and a file that is gone afterwards
    stop the annotate step at [DCHECK(FAILED(hr))]; it returns nothing,
    [FILE_SECURITY_CHECK_FAILED] included. *)
Lemma annotate_success_missing_stops_debug_build :
  @DCHECK_IS_ON (sample_environment true 0 0 S_OK true) = true /\
  SUCCEEDED (sample_inspection_status true S_OK true) = true /\
  sample_exists_after true S_OK true = false /\
  sample_annotate true S_OK true = None /\
  returned (sample_annotate true S_OK true) <>
    Some DOWNLOAD_INTERRUPT_REASON_FILE_SECURITY_CHECK_FAILED.
Proof.
  repeat split; try reflexivity. discriminate.
Qed.

(** C10, amended.  When the inspection call reports success but the
    destination file is gone once it has returned, the annotate step never
    returns [NONE].  In a build without debug assertions it records the
    [FILE_MISSING_AFTER_SUCCESSFUL_SCAN_COUNT] counter, logs the reason and
    returns [FILE_SECURITY_CHECK_FAILED]; in a build with debug assertions
    it stops at an assertion, [DCHECK(FAILED(hr))] at the latest, and
    returns nothing. *)
Theorem annotate_success_but_file_missing :
  forall (E : Environment) (this : BaseFile) (s : State),
    SUCCEEDED (inspection_status this s) = true ->
    exists_after_inspection this s = false ->
    let run := AnnotateWithSourceInformation this s in
    returned run <> Some DOWNLOAD_INTERRUPT_REASON_NONE /\
    (DCHECK_IS_ON = false ->
     returned run =
       Some DOWNLOAD_INTERRUPT_REASON_FILE_SECURITY_CHECK_FAILED /\
     added_events s run =
       Some [NetLogBeginEvent TYPE_DOWNLOAD_FILE_ANNOTATED;
             DownloadCountRecorded FILE_MISSING_AFTER_SUCCESSFUL_SCAN_COUNT;
             InterruptReasonLogged "ScanAndSaveDownloadedFile"
               (inspection_status this s)
               DOWNLOAD_INTERRUPT_REASON_FILE_SECURITY_CHECK_FAILED;
             NetLogEndEvent TYPE_DOWNLOAD_FILE_ANNOTATED]) /\
    (DCHECK_IS_ON = true -> run = None).
Proof.
  intros E this s Hok Hgone run. subst run.
  assert (Hfailed : FAILED (inspection_status this s) = false).
  { rewrite SUCCEEDED_FAILED in Hok. now apply negb_true_iff in Hok. }
  assert (Hoff : DCHECK_IS_ON = false ->
                 returned (AnnotateWithSourceInformation this s) =
                   Some DOWNLOAD_INTERRUPT_REASON_FILE_SECURITY_CHECK_FAILED /\
                 added_events s (AnnotateWithSourceInformation this s) =
                   Some [NetLogBeginEvent TYPE_DOWNLOAD_FILE_ANNOTATED;
                         DownloadCountRecorded
                           FILE_MISSING_AFTER_SUCCESSFUL_SCAN_COUNT;
                         InterruptReasonLogged "ScanAndSaveDownloadedFile"
                           (inspection_status this s)
                           DOWNLOAD_INTERRUPT_REASON_FILE_SECURITY_CHECK_FAILED;
                         NetLogEndEvent TYPE_DOWNLOAD_FILE_ANNOTATED]).
  { intro Hoff.
    assert (Hentry : annotate_entry_ok this)
      by (intro Hon; rewrite Hoff in Hon; discriminate).
    rewrite (AnnotateWithSourceInformation_run this s Hentry), Hgone, Hoff.
    cbn [andb]. cbv zeta. unfold annotate_events_missing.
    apply MapScanAndSave_NONE_iff in Hok. rewrite Hok. cbn [reason_eqb].
    split; [reflexivity|]. apply added_events_app. }
  assert (Hon : DCHECK_IS_ON = true ->
                AnnotateWithSourceInformation this s = None).
  { intro Hon.
    destruct (AnnotateWithSourceInformation this s) as [p|] eqn:Hrun;
      [|reflexivity].
    assert (Hentry : annotate_entry_ok this)
      by (apply (annotate_returns_entry_ok this s); congruence).
    rewrite (AnnotateWithSourceInformation_run this s Hentry), Hgone, Hon,
      Hfailed in Hrun.
    discriminate Hrun. }
  split; [|split; [exact Hoff|exact Hon]].
  destruct DCHECK_IS_ON.
  - rewrite (Hon eq_refl). discriminate.
  - rewrite (proj1 (Hoff eq_refl)). discriminate.
Qed.

Lemma annotate_success_but_file_missing_witness :
  @DCHECK_IS_ON (sample_environment false 0 0 S_OK true) = false /\
  SUCCEEDED (sample_inspection_status false S_OK true) = true /\
  sample_exists_after false S_OK true = false /\
  returned (sample_annotate false S_OK true) =
    Some DOWNLOAD_INTERRUPT_REASON_FILE_SECURITY_CHECK_FAILED.
Proof.
  pose (E := sample_environment false 0 0 S_OK true).
  pose (s := sample_state E sample_disk).
  split; [reflexivity|]. split; [reflexivity|]. split; [reflexivity|].
  exact (proj1 (proj1 (proj2 (annotate_success_but_file_missing E sample_file
                                s eq_refl eq_refl)) eq_refl)).
Defined.

(** C1, the claim as stated fails: the inspection service answers [S_OK]
    and the file is gone afterwards; the annotate step returns
    [FILE_SECURITY_CHECK_FAILED] in a build without debug assertions and
    does not return at all in a build with them. *)
Lemma annotate_success_not_always_NONE :
  SUCCEEDED (sample_inspection_status false S_OK true) = true /\
  sample_exists_after false S_OK true = false /\
  returned (sample_annotate false S_OK true) =
    Some DOWNLOAD_INTERRUPT_REASON_FILE_SECURITY_CHECK_FAILED /\
  returned (sample_annotate false S_OK true) <>
    Some DOWNLOAD_INTERRUPT_REASON_NONE /\
  returned (sample_annotate true S_OK true) = None.
Proof.
  pose (E := sample_environment false 0 0 S_OK true).
  pose (s := sample_state E sample_disk).
  repeat split; try reflexivity. discriminate.
Qed.

(** C1, amended.  For a status that indicates success,
    [MapScanAndSaveErrorCodeToInterruptReason] gives [NONE], and the
    annotate step returns [NONE] when the destination file still exists
    after the call.  When the file is gone the step does not return
    [NONE]: it returns [FILE_SECURITY_CHECK_FAILED], or stops at its
    assertion where debug assertions are compiled in. *)
Theorem annotate_success_classification :
  forall (E : Environment) (this : BaseFile) (s : State),
    annotate_entry_ok this ->
    SUCCEEDED (inspection_status this s) = true ->
    let outcome := returned (AnnotateWithSourceInformation this s) in
    MapScanAndSaveErrorCodeToInterruptReason (inspection_status this s) =
      DOWNLOAD_INTERRUPT_REASON_NONE /\
    (exists_after_inspection this s = true ->
     outcome = Some DOWNLOAD_INTERRUPT_REASON_NONE) /\
    (exists_after_inspection this s = false ->
     outcome <> Some DOWNLOAD_INTERRUPT_REASON_NONE /\
     outcome =
       if DCHECK_IS_ON then None
       else Some DOWNLOAD_INTERRUPT_REASON_FILE_SECURITY_CHECK_FAILED).
Proof.
  intros E this s Hentry Hok outcome. subst outcome.
  rewrite (AnnotateWithSourceInformation_run this s Hentry).
  pose proof (proj2 (MapScanAndSave_NONE_iff _) Hok) as Hmap.
  split; [exact Hmap|]. split.
  - intros ->. reflexivity.
  - intros ->. cbv zeta. rewrite Hmap. cbn [reason_eqb].
    rewrite SUCCEEDED_FAILED in Hok. apply negb_true_iff in Hok.
    rewrite Hok. cbn [negb]. rewrite andb_true_r.
    destruct DCHECK_IS_ON; simpl; split; (reflexivity || discriminate).
Qed.

Lemma annotate_success_classification_witness :
  SUCCEEDED (sample_inspection_status true S_OK false) = true /\
  sample_exists_after true S_OK false = true /\
  returned (sample_annotate true S_OK false) =
    Some DOWNLOAD_INTERRUPT_REASON_NONE.
Proof.
  pose (E := sample_environment true 0 0 S_OK false).
  pose (s := sample_state E sample_disk).
  assert (Hentry : @annotate_entry_ok E sample_file)
    by (intro; split; reflexivity).
  split; [reflexivity|]. split; [reflexivity|].
  exact (proj1 (proj2 (annotate_success_classification E sample_file s
                         Hentry eq_refl)) eq_refl).
Defined.

(** C8, the claim as stated fails: the inspection call fails with
    [E_ACCESSDENIED], the file stays on disk, and the annotate step
    returns [NONE] although the inspection did not succeed. *)
Lemma annotate_NONE_despite_failed_inspection :
  returned (sample_annotate true E_ACCESSDENIED false) =
    Some DOWNLOAD_INTERRUPT_REASON_NONE /\
  SUCCEEDED (sample_inspection_status true E_ACCESSDENIED false) = false /\
  FAILED (sample_inspection_status true E_ACCESSDENIED false) = true.
Proof.
  pose (E := sample_environment true 0 0 E_ACCESSDENIED false).
  pose (s := sample_state E sample_disk).
  repeat split; reflexivity.
Qed.

(** C8, amended.  Given the entry assertions of each method (or a build
    without debug assertions): the relocate step produces exactly one
    reason, and it is [NONE] exactly when the primitive returned 0 without
    aborting anything, or returned a nonzero code that
    [MapShFileOperationCodes] itself maps to [NONE].  The annotate step's
    reason is [NONE] exactly when the destination file still exists after
    the inspection call, whether or not that call reported success.  The
    annotate step produces exactly one reason, except in one case where it
    produces none: debug assertions are compiled in, the status indicated
    success and the file is gone, and the step stops at
    [DCHECK(FAILED(hr))]. *)
Theorem finalize_NONE_characterised :
  forall (T : ErrorTranslator) (E : Environment)
         (this : BaseFile) (new_path : FilePath) (s : State)
         (this' : BaseFile) (s' : State),
    (relocate_entry_ok ->
     let outcome := returned (MoveFileAndAdjustPermissions this new_path s) in
     let code := relocation_code this new_path s in
     (exists! reason, outcome = Some reason) /\
     (outcome = Some DOWNLOAD_INTERRUPT_REASON_NONE <->
      (code = 0 /\ relocation_aborted this new_path s = false) \/
      (code <> 0 /\
       MapShFileOperationCodes code = DOWNLOAD_INTERRUPT_REASON_NONE))) /\
    (annotate_entry_ok this' ->
     let outcome := returned (AnnotateWithSourceInformation this' s') in
     let stopped :=
       DCHECK_IS_ON = true /\
       SUCCEEDED (inspection_status this' s') = true /\
       exists_after_inspection this' s' = false in
     (outcome = Some DOWNLOAD_INTERRUPT_REASON_NONE <->
      exists_after_inspection this' s' = true) /\
     ((exists! reason, outcome = Some reason) <-> ~ stopped) /\
     (outcome = None <-> stopped)).
Proof.
  intros T E this new_path s this' s'. split.
  - intros Hentry outcome code. subst outcome.
    rewrite (MoveFileAndAdjustPermissions_run this new_path s Hentry).
    fold code. unfold returned, relocation_reason; simpl. split.
    + eexists. split; [reflexivity|]. now intros r [= <-].
    + destruct (Z.eqb_spec code 0) as [Hz|Hnz].
      * destruct (relocation_aborted this new_path s); split;
          try discriminate; try tauto.
        intros [[_ Hf]|[Hne _]]; [discriminate|contradiction].
      * split.
        -- intros [= Hmap]. right. now split.
        -- intros [[Hz _]|[_ Hmap]]; [contradiction|now rewrite Hmap].
  - intros Hentry outcome stopped. subst outcome stopped.
    rewrite (AnnotateWithSourceInformation_run this' s' Hentry).
    rewrite SUCCEEDED_FAILED.
    destruct (exists_after_inspection this' s').
    + split; [split; reflexivity|]. split.
      * split.
        -- intros _ [_ [_ Hf]]. discriminate.
        -- intros _. eexists. split; [reflexivity|]. now intros r [= <-].
      * split; [discriminate|]. intros [_ [_ Hf]]. discriminate.
    + cbv zeta.
      destruct DCHECK_IS_ON, (FAILED (inspection_status this' s')); simpl.
      * (* assertions on, failed status: one reason, not NONE *)
        split; [|split].
        -- split; [|discriminate].
           destruct (reason_eqb _ DOWNLOAD_INTERRUPT_REASON_NONE) eqn:Heq;
             [discriminate|].
           intros [= Hmap]. rewrite Hmap in Heq. discriminate.
        -- split.
           ++ intros _ [_ [Hf _]]. discriminate.
           ++ intros _. eexists. split; [reflexivity|]. now intros r [= <-].
        -- split; [discriminate|]. intros [_ [Hf _]]. discriminate.
      * (* assertions on, successful status: stopped *)
        split; [|split].
        -- split; discriminate.
        -- split.
           ++ intros [r [Hr _]]. discriminate.
           ++ intros Hn. exfalso. apply Hn. repeat split.
        -- split; [intros _; repeat split|reflexivity].
      * split; [|split].
        -- split; [|discriminate].
           destruct (reason_eqb _ DOWNLOAD_INTERRUPT_REASON_NONE) eqn:Heq;
             [discriminate|].
           intros [= Hmap]. rewrite Hmap in Heq. discriminate.
        -- split.
           ++ intros _ [Hf _]. discriminate.
           ++ intros _. eexists. split; [reflexivity|]. now intros r [= <-].
        -- split; [discriminate|]. intros [Hf _]. discriminate.
      * split; [|split].
        -- split; [|discriminate].
           destruct (reason_eqb _ DOWNLOAD_INTERRUPT_REASON_NONE) eqn:Heq;
             [discriminate|].
           intros [= Hmap]. rewrite Hmap in Heq. discriminate.
        -- split.
           ++ intros _ [Hf _]. discriminate.
           ++ intros _. eexists. split; [reflexivity|]. now intros r [= <-].
        -- split; [discriminate|]. intros [Hf _]. discriminate.
Qed.

Lemma finalize_NONE_characterised_witness :
  @relocate_entry_ok (sample_environment true 0 0 E_ACCESSDENIED false) /\
  @annotate_entry_ok (sample_environment true 0 0 E_ACCESSDENIED false)
    sample_file /\
  returned
    (@MoveFileAndAdjustPermissions sample_translator
       (sample_environment true 0 0 E_ACCESSDENIED false)
       sample_file sample_target
       (sample_state (sample_environment true 0 0 E_ACCESSDENIED false)
          sample_disk)) =
    Some DOWNLOAD_INTERRUPT_REASON_NONE /\
  sample_exists_after true E_ACCESSDENIED false = true /\
  returned (sample_annotate true E_ACCESSDENIED false) =
    Some DOWNLOAD_INTERRUPT_REASON_NONE.
Proof.
  pose (E := sample_environment true 0 0 E_ACCESSDENIED false).
  pose (s := sample_state E sample_disk).
  assert (Hr : @relocate_entry_ok E) by (intro; reflexivity).
  assert (Ha : @annotate_entry_ok E sample_file)
    by (intro; split; reflexivity).
  pose proof (finalize_NONE_characterised sample_translator E
                sample_file sample_target s sample_file s)
    as [Hrel Hann].
  split; [exact Hr|]. split; [exact Ha|]. split; [|split; [reflexivity|]].
  - exact (proj2 (proj2 (Hrel Hr)) (or_introl (conj eq_refl eq_refl))).
  - exact (proj2 (proj1 (Hann Ha)) eq_refl).
Defined.




(** * Further properties of the two classifiers and the two methods *)

(** ** [MapShFileOperationCodes] beyond the table lookup *)

(** The reasons that occur in the table. *)
Lemma ShFileOperationCases_reasons (code : Z)
  (reason : DownloadInterruptReason) :
  In (code, reason) ShFileOperationCases ->
  reason <> DOWNLOAD_INTERRUPT_REASON_NONE /\
  (reason = DOWNLOAD_INTERRUPT_REASON_FILE_FAILED \/
   reason = DOWNLOAD_INTERRUPT_REASON_FILE_ACCESS_DENIED \/
   reason = DOWNLOAD_INTERRUPT_REASON_FILE_NAME_TOO_LONG \/
   reason = DOWNLOAD_INTERRUPT_REASON_FILE_TOO_LARGE).
Proof.
  intro HIn. simpl in HIn.
  repeat (destruct HIn as [HIn|HIn];
          [injection HIn as <- <-; split; [discriminate|tauto]|]).
  contradiction.
Qed.

(** X1.  A code that has a case in the table is never reported as success:
    its reason is [FILE_FAILED], [FILE_ACCESS_DENIED], [FILE_NAME_TOO_LONG]
    or [FILE_TOO_LARGE], whatever the translator is. *)
Theorem legacy_codes_are_failures :
  forall (T : ErrorTranslator) (code : Z) (reason : DownloadInterruptReason),
    In (code, reason) ShFileOperationCases ->
    MapShFileOperationCodes code <> DOWNLOAD_INTERRUPT_REASON_NONE /\
    (MapShFileOperationCodes code = DOWNLOAD_INTERRUPT_REASON_FILE_FAILED \/
     MapShFileOperationCodes code =
       DOWNLOAD_INTERRUPT_REASON_FILE_ACCESS_DENIED \/
     MapShFileOperationCodes code =
       DOWNLOAD_INTERRUPT_REASON_FILE_NAME_TOO_LONG \/
     MapShFileOperationCodes code = DOWNLOAD_INTERRUPT_REASON_FILE_TOO_LARGE).
Proof.
  intros T code reason HIn.
  rewrite (MapShFileOperationCodes_case code reason HIn).
  now apply (ShFileOperationCases_reasons code).
Qed.

Lemma legacy_codes_are_failures_witness :
  In (0x85, DOWNLOAD_INTERRUPT_REASON_FILE_TOO_LARGE) ShFileOperationCases /\
  @MapShFileOperationCodes sample_translator 0x85 <>
    DOWNLOAD_INTERRUPT_REASON_NONE.
Proof.
  assert (HIn : In (0x85, DOWNLOAD_INTERRUPT_REASON_FILE_TOO_LARGE)
                  ShFileOperationCases) by (simpl; tauto).
  split; [exact HIn|].
  exact (proj1 (legacy_codes_are_failures sample_translator 0x85
                  DOWNLOAD_INTERRUPT_REASON_FILE_TOO_LARGE HIn)).
Defined.

(** X2.  The table covers the codes 0x71 to 0x88 except 0x77, 0x7B and
    0x7F, and the four codes 0xB7, 0x402, 0x10000 and 0x10074.  Every other
    code, zero and the negative ones included, is handed to the generic
    translator. *)
Theorem unlisted_codes_use_translator :
  forall (T : ErrorTranslator) (code : Z),
    code < 0x71 \/ code = 0x77 \/ code = 0x7B \/ code = 0x7F \/
    0x88 < code < 0xB7 \/ 0xB7 < code < 0x402 \/ 0x402 < code < 0x10000 \/
    0x10000 < code < 0x10074 \/ 0x10074 < code ->
    MapShFileOperationCodes code =
      ConvertNetErrorToInterruptReason
        (MapSystemError code) DOWNLOAD_INTERRUPT_FROM_DISK.
Proof.
  intros T code Hout. unfold MapShFileOperationCodes.
  destruct (switch_return ShFileOperationCases code) as [r|] eqn:E;
    [|reflexivity].
  exfalso. apply switch_return_sound in E. simpl in E.
  repeat (destruct E as [E|E]; [injection E as E _; lia|]).
  contradiction.
Qed.

Lemma unlisted_codes_use_translator_witness :
  0x7B = 0x7B /\
  @MapShFileOperationCodes sample_translator 0x7B =
    DOWNLOAD_INTERRUPT_REASON_PASSTHROUGH (-123).
Proof.
  split; [reflexivity|].
  exact (unlisted_codes_use_translator sample_translator 0x7B
           (or_intror (or_intror (or_introl eq_refl)))).
Defined.

(** X3.  Conversely every code in 0x71..0x88 other than 0x77, 0x7B and
    0x7F has a case, so the translator has no say on it. *)
Theorem legacy_range_is_covered :
  forall (T : ErrorTranslator) (code : Z),
    0x71 <= code <= 0x88 ->
    code <> 0x77 -> code <> 0x7B -> code <> 0x7F ->
    exists reason,
      In (code, reason) ShFileOperationCases /\
      MapShFileOperationCodes code = reason.
Proof.
  intros T code Hrange H77 H7B H7F.
  assert (Hcases :
            code = 0x71 \/ code = 0x72 \/ code = 0x73 \/ code = 0x74 \/
            code = 0x75 \/ code = 0x76 \/ code = 0x78 \/ code = 0x79 \/
            code = 0x7A \/ code = 0x7C \/ code = 0x7D \/ code = 0x7E \/
            code = 0x80 \/ code = 0x81 \/ code = 0x82 \/ code = 0x83 \/
            code = 0x84 \/ code = 0x85 \/ code = 0x86 \/ code = 0x87 \/
            code = 0x88) by lia.
  unfold MapShFileOperationCodes.
  destruct (switch_return ShFileOperationCases code) as [r|] eqn:E.
  - exists r. split; [now apply switch_return_sound|reflexivity].
  - exfalso.
    repeat (destruct Hcases as [->|Hcases]; [discriminate E|]).
    subst code. discriminate E.
Qed.

Lemma legacy_range_is_covered_witness :
  0x71 <= 0x7A <= 0x88 /\
  exists reason,
    In (0x7A, reason) ShFileOperationCases /\
    @MapShFileOperationCodes sample_translator 0x7A = reason.
Proof.
  assert (Hrange : 0x71 <= 0x7A <= 0x88) by lia.
  split; [exact Hrange|].
  apply (legacy_range_is_covered sample_translator 0x7A Hrange); lia.
Defined.

(** ** When the two methods return at all *)

(** X4.  The relocate step fails to return in exactly one situation: debug
    assertions are compiled in and the calling thread may not block on
    I/O.  Whatever the relocation primitive answers, the step itself
    returns. *)
Theorem relocate_aborts_iff :
  forall (T : ErrorTranslator) (E : Environment)
         (this : BaseFile) (new_path : FilePath) (s : State),
    MoveFileAndAdjustPermissions this new_path s = None <->
    DCHECK_IS_ON = true /\ ThreadRestrictions_io_allowed = false.
Proof.
  intros T E this new_path s. split.
  - intro Hnone.
    destruct DCHECK_IS_ON eqn:Hon, ThreadRestrictions_io_allowed eqn:Hio;
      try (split; reflexivity); exfalso;
      (assert (Hentry : relocate_entry_ok)
        by (unfold relocate_entry_ok; rewrite Hon, Hio; intros;
            (reflexivity || discriminate)));
      rewrite (MoveFileAndAdjustPermissions_run this new_path s Hentry)
        in Hnone; discriminate.
  - intros [Hon Hio].
    destruct (MoveFileAndAdjustPermissions this new_path s) eqn:Hrun;
      [|reflexivity].
    assert (Hentry : relocate_entry_ok)
      by (apply (relocate_returns_entry_ok this new_path s); congruence).
    rewrite (Hentry Hon) in Hio. discriminate.
Qed.

(** X5.  The annotate step fails to return exactly when debug assertions
    are compiled in and one of them is violated: the call is not on the
    FILE thread, the file is detached, or the file is gone after an
    inspection that reported success. *)
Theorem annotate_aborts_iff :
  forall (E : Environment) (this : BaseFile) (s : State),
    AnnotateWithSourceInformation this s = None <->
    DCHECK_IS_ON = true /\
    (BrowserThread_CurrentlyOn BrowserThread_FILE = false \/
     detached_ this = true \/
     (exists_after_inspection this s = false /\
      SUCCEEDED (inspection_status this s) = true)).
Proof.
  intros E this s. split.
  - intro Hnone.
    destruct DCHECK_IS_ON eqn:Hon.
    + split; [reflexivity|].
      destruct (BrowserThread_CurrentlyOn BrowserThread_FILE) eqn:Hth;
        [|now left].
      destruct (detached_ this) eqn:Hdet; [now (right; left)|].
      right; right.
      assert (Hentry : annotate_entry_ok this)
        by (intros _; now rewrite Hth, Hdet).
      rewrite (AnnotateWithSourceInformation_run this s Hentry), Hon
        in Hnone.
      destruct (exists_after_inspection this s); [discriminate|].
      split; [reflexivity|]. rewrite SUCCEEDED_FAILED.
      destruct (FAILED (inspection_status this s)); [|reflexivity].
      discriminate.
    + assert (Hentry : annotate_entry_ok this)
        by (intro Hc; rewrite Hon in Hc; discriminate).
      rewrite (AnnotateWithSourceInformation_run this s Hentry), Hon
        in Hnone.
      destruct (exists_after_inspection this s); discriminate.
  - intros [Hon Hbad].
    destruct (AnnotateWithSourceInformation this s) as [p|] eqn:Hrun;
      [|reflexivity].
    assert (Hentry : annotate_entry_ok this)
      by (apply (annotate_returns_entry_ok this s); congruence).
    destruct (Hentry Hon) as [Hth Hdet].
    destruct Hbad as [Hb|[Hb|[Hgone Hok]]]; [congruence|congruence|].
    rewrite (AnnotateWithSourceInformation_run this s Hentry), Hgone, Hon
      in Hrun.
    rewrite SUCCEEDED_FAILED in Hok. apply negb_true_iff in Hok.
    rewrite Hok in Hrun. discriminate.
Qed.

(** ** What the two methods leave behind *)

(** X6.  The relocate step makes one system call and writes at most one
    log entry.  The state of the system afterwards is the one the
    relocation primitive left; the events recorded before are kept; a
    [NONE] result adds nothing, and any other result adds exactly the entry
    "SHFileOperation" with the raw code and the reason returned. *)
Theorem relocate_logs_exactly_failures :
  forall (T : ErrorTranslator) (E : Environment)
         (this : BaseFile) (new_path : FilePath) (s s' : State)
         (reason : DownloadInterruptReason),
    MoveFileAndAdjustPermissions this new_path s = Some (reason, s') ->
    os_state s' =
      snd (SHFileOperation (move_info_for this new_path) (os_state s)) /\
    (reason = DOWNLOAD_INTERRUPT_REASON_NONE -> events s' = events s) /\
    (reason <> DOWNLOAD_INTERRUPT_REASON_NONE ->
     events s' =
       events s ++
       [InterruptReasonLogged "SHFileOperation"
          (relocation_code this new_path s) reason]).
Proof.
  intros T E this new_path s s' reason Hrun.
  assert (Hentry : relocate_entry_ok)
    by (apply (relocate_returns_entry_ok this new_path s); congruence).
  rewrite (MoveFileAndAdjustPermissions_run this new_path s Hentry) in Hrun.
  cbv zeta in Hrun. injection Hrun as Hreason Hs'. subst s'. simpl.
  rewrite Hreason. split; [reflexivity|]. split.
  - intros ->. simpl. apply app_nil_r.
  - intros Hne. apply reason_eqb_NONE in Hne. now rewrite Hne.
Qed.

Lemma relocate_logs_exactly_failures_witness :
  sample_relocate true 0x79 0 =
    Some (DOWNLOAD_INTERRUPT_REASON_FILE_NAME_TOO_LONG,
          @Build_State (sample_environment true 0x79 0 S_OK false)
            sample_disk
            [InterruptReasonLogged "SHFileOperation" 0x79
               DOWNLOAD_INTERRUPT_REASON_FILE_NAME_TOO_LONG]) /\
  DOWNLOAD_INTERRUPT_REASON_FILE_NAME_TOO_LONG <>
    DOWNLOAD_INTERRUPT_REASON_NONE /\
  @events (sample_environment true 0x79 0 S_OK false)
    (@Build_State (sample_environment true 0x79 0 S_OK false)
       sample_disk
       [InterruptReasonLogged "SHFileOperation" 0x79
          DOWNLOAD_INTERRUPT_REASON_FILE_NAME_TOO_LONG]) =
    [] ++ [InterruptReasonLogged "SHFileOperation" 0x79
             DOWNLOAD_INTERRUPT_REASON_FILE_NAME_TOO_LONG].
Proof.
  pose (E := sample_environment true 0x79 0 S_OK false).
  assert (Hrun : sample_relocate true 0x79 0 =
    Some (DOWNLOAD_INTERRUPT_REASON_FILE_NAME_TOO_LONG,
          @Build_State E sample_disk
            [InterruptReasonLogged "SHFileOperation" 0x79
               DOWNLOAD_INTERRUPT_REASON_FILE_NAME_TOO_LONG]))
    by reflexivity.
  assert (Hne : DOWNLOAD_INTERRUPT_REASON_FILE_NAME_TOO_LONG <>
                DOWNLOAD_INTERRUPT_REASON_NONE) by discriminate.
  split; [exact Hrun|]. split; [exact Hne|].
  exact (proj2 (proj2 (relocate_logs_exactly_failures sample_translator E
                         sample_file sample_target
                         (sample_state E sample_disk) _ _ Hrun)) Hne).
Defined.

(** X7.  Every run of the annotate step that returns is bracketed by the
    begin and end events of [TYPE_DOWNLOAD_FILE_ANNOTATED], leaves the
    system as the inspection service left it, and keeps the events recorded
    before.  Between the two events there is nothing when the file is still
    there; when it is gone there is the log entry
    "ScanAndSaveDownloadedFile" with the status and the reason returned,
    preceded by the counter only if the status indicated success. *)
Theorem annotate_events_bracketed :
  forall (E : Environment) (this : BaseFile) (s s' : State)
         (reason : DownloadInterruptReason),
    AnnotateWithSourceInformation this s = Some (reason, s') ->
    os_state s' =
      snd (ScanAndSaveDownloadedFile (full_path_ this) (source_url_ this)
             (os_state s)) /\
    exists middle : list Event,
      events s' =
        events s ++
        NetLogBeginEvent TYPE_DOWNLOAD_FILE_ANNOTATED :: middle ++
        [NetLogEndEvent TYPE_DOWNLOAD_FILE_ANNOTATED] /\
      (exists_after_inspection this s = true -> middle = []) /\
      (exists_after_inspection this s = false ->
       middle =
         (if SUCCEEDED (inspection_status this s)
          then [DownloadCountRecorded FILE_MISSING_AFTER_SUCCESSFUL_SCAN_COUNT]
          else []) ++
         [InterruptReasonLogged "ScanAndSaveDownloadedFile"
            (inspection_status this s) reason]).
Proof.
  intros E this s s' reason Hrun.
  assert (Hentry : annotate_entry_ok this)
    by (apply (annotate_returns_entry_ok this s); congruence).
  rewrite (AnnotateWithSourceInformation_run this s Hentry) in Hrun.
  cbv zeta in Hrun.
  destruct (exists_after_inspection this s).
  - injection Hrun as <- <-. simpl. split; [reflexivity|].
    exists []. split; [reflexivity|]. split; [reflexivity|discriminate].
  - destruct (DCHECK_IS_ON && negb (FAILED (inspection_status this s)));
      [discriminate|].
    injection Hrun as Hreason Hs'. subst s'. simpl. split; [reflexivity|].
    unfold annotate_events_missing.
    pose proof (MapScanAndSave_NONE_iff (inspection_status this s)) as Hiff.
    destruct (reason_eqb
                (MapScanAndSaveErrorCodeToInterruptReason
                   (inspection_status this s))
                DOWNLOAD_INTERRUPT_REASON_NONE) eqn:Heq.
    + apply reason_eqb_eq in Heq. rewrite (proj1 Hiff Heq). subst reason.
      exists [DownloadCountRecorded FILE_MISSING_AFTER_SUCCESSFUL_SCAN_COUNT;
              InterruptReasonLogged "ScanAndSaveDownloadedFile"
                (inspection_status this s)
                DOWNLOAD_INTERRUPT_REASON_FILE_SECURITY_CHECK_FAILED].
      split; [reflexivity|]. split; [discriminate|reflexivity].
    + apply reason_eqb_NONE in Heq.
      assert (Hs : SUCCEEDED (inspection_status this s) = false).
      { destruct (SUCCEEDED (inspection_status this s)); [|reflexivity].
        exfalso. apply Heq. now apply Hiff. }
      rewrite Hs. subst reason.
      exists [InterruptReasonLogged "ScanAndSaveDownloadedFile"
                (inspection_status this s)
                (MapScanAndSaveErrorCodeToInterruptReason
                   (inspection_status this s))].
      split; [reflexivity|]. split; [discriminate|reflexivity].
Qed.

Lemma annotate_events_bracketed_witness :
  sample_annotate true E_FAIL true =
    Some (DOWNLOAD_INTERRUPT_REASON_FILE_VIRUS_INFECTED,
          @Build_State (sample_environment true 0 0 E_FAIL true) []
            [NetLogBeginEvent TYPE_DOWNLOAD_FILE_ANNOTATED;
             InterruptReasonLogged "ScanAndSaveDownloadedFile" E_FAIL
               DOWNLOAD_INTERRUPT_REASON_FILE_VIRUS_INFECTED;
             NetLogEndEvent TYPE_DOWNLOAD_FILE_ANNOTATED]) /\
  exists middle : list Event,
    [NetLogBeginEvent TYPE_DOWNLOAD_FILE_ANNOTATED;
     InterruptReasonLogged "ScanAndSaveDownloadedFile" E_FAIL
       DOWNLOAD_INTERRUPT_REASON_FILE_VIRUS_INFECTED;
     NetLogEndEvent TYPE_DOWNLOAD_FILE_ANNOTATED] =
    [] ++ NetLogBeginEvent TYPE_DOWNLOAD_FILE_ANNOTATED :: middle ++
    [NetLogEndEvent TYPE_DOWNLOAD_FILE_ANNOTATED].
Proof.
  pose (E := sample_environment true 0 0 E_FAIL true).
  assert (Hrun : sample_annotate true E_FAIL true =
    Some (DOWNLOAD_INTERRUPT_REASON_FILE_VIRUS_INFECTED,
          @Build_State E []
            [NetLogBeginEvent TYPE_DOWNLOAD_FILE_ANNOTATED;
             InterruptReasonLogged "ScanAndSaveDownloadedFile" E_FAIL
               DOWNLOAD_INTERRUPT_REASON_FILE_VIRUS_INFECTED;
             NetLogEndEvent TYPE_DOWNLOAD_FILE_ANNOTATED]))
    by reflexivity.
  split; [exact Hrun|].
  destruct (proj2 (annotate_events_bracketed E sample_file
                     (sample_state E sample_disk) _ _ Hrun))
    as [middle [Hev _]].
  exists middle. exact Hev.
Defined.

(** X8.  Where each reason of the annotate step comes from.  [NONE] means
    the file is still there; [FILE_BLOCKED] means the file is gone and the
    status was [INET_E_SECURITY_PROBLEM]; [FILE_VIRUS_INFECTED] means the
    file is gone and the status was [E_FAIL]; the only other reason is
    [FILE_SECURITY_CHECK_FAILED], for a missing file and any other status.
    The step returns no other reason. *)
Theorem annotate_reason_origin :
  forall (E : Environment) (this : BaseFile) (s s' : State)
         (reason : DownloadInterruptReason),
    AnnotateWithSourceInformation this s = Some (reason, s') ->
    let hr := inspection_status this s in
    (reason = DOWNLOAD_INTERRUPT_REASON_NONE /\
     exists_after_inspection this s = true) \/
    (exists_after_inspection this s = false /\
     ((reason = DOWNLOAD_INTERRUPT_REASON_FILE_BLOCKED /\
       hr = INET_E_SECURITY_PROBLEM) \/
      (reason = DOWNLOAD_INTERRUPT_REASON_FILE_VIRUS_INFECTED /\
       hr = E_FAIL) \/
      (reason = DOWNLOAD_INTERRUPT_REASON_FILE_SECURITY_CHECK_FAILED /\
       hr <> INET_E_SECURITY_PROBLEM /\ hr <> E_FAIL))).
Proof.
  intros E this s s' reason Hrun hr.
  assert (Hentry : annotate_entry_ok this)
    by (apply (annotate_returns_entry_ok this s); congruence).
  rewrite (AnnotateWithSourceInformation_run this s Hentry) in Hrun.
  cbv zeta in Hrun. fold hr in Hrun.
  destruct (exists_after_inspection this s).
  - injection Hrun as <- _. now left.
  - right. split; [reflexivity|].
    destruct (DCHECK_IS_ON && negb (FAILED hr)); [discriminate|].
    injection Hrun as Hreason _. subst reason. clearbody hr.
    unfold MapScanAndSaveErrorCodeToInterruptReason.
    destruct (SUCCEEDED hr) eqn:Hs.
    + simpl. right; right. split; [reflexivity|].
      unfold SUCCEEDED in Hs. apply Z.leb_le in Hs.
      pose proof HRESULT_constants as [He [Hi _]]. lia.
    + destruct (Z.eqb_spec hr INET_E_SECURITY_PROBLEM) as [->|Hn1]; simpl.
      * left. now split.
      * destruct (Z.eqb_spec hr E_FAIL) as [->|Hn2]; simpl.
        -- right; left. now split.
        -- right; right. now repeat split.
Qed.

Lemma annotate_reason_origin_witness :
  sample_annotate true E_FAIL true =
    Some (DOWNLOAD_INTERRUPT_REASON_FILE_VIRUS_INFECTED,
          @Build_State (sample_environment true 0 0 E_FAIL true) []
            [NetLogBeginEvent TYPE_DOWNLOAD_FILE_ANNOTATED;
             InterruptReasonLogged "ScanAndSaveDownloadedFile" E_FAIL
               DOWNLOAD_INTERRUPT_REASON_FILE_VIRUS_INFECTED;
             NetLogEndEvent TYPE_DOWNLOAD_FILE_ANNOTATED]) /\
  sample_inspection_status true E_FAIL true = E_FAIL.
Proof.
  pose (E := sample_environment true 0 0 E_FAIL true).
  assert (Hrun : sample_annotate true E_FAIL true =
    Some (DOWNLOAD_INTERRUPT_REASON_FILE_VIRUS_INFECTED,
          @Build_State E []
            [NetLogBeginEvent TYPE_DOWNLOAD_FILE_ANNOTATED;
             InterruptReasonLogged "ScanAndSaveDownloadedFile" E_FAIL
               DOWNLOAD_INTERRUPT_REASON_FILE_VIRUS_INFECTED;
             NetLogEndEvent TYPE_DOWNLOAD_FILE_ANNOTATED]))
    by reflexivity.
  split; [exact Hrun|].
  destruct (annotate_reason_origin E sample_file
              (sample_state E sample_disk) _ _ Hrun)
    as [[Hc _]|[_ [[Hc _]|[[_ Hhr]|[Hc _]]]]];
    try discriminate Hc.
  exact Hhr.
Defined.

(** X9.  A relocation primitive that answers with a code of the table makes
    the relocate step return the reason of that case, not [NONE], and log
    it, whether or not the any-operations-aborted flag is set. *)
Theorem relocate_reports_legacy_codes :
  forall (T : ErrorTranslator) (E : Environment)
         (this : BaseFile) (new_path : FilePath) (s : State)
         (reason : DownloadInterruptReason),
    relocate_entry_ok ->
    In (relocation_code this new_path s, reason) ShFileOperationCases ->
    reason <> DOWNLOAD_INTERRUPT_REASON_NONE /\
    returned (MoveFileAndAdjustPermissions this new_path s) = Some reason /\
    added_events s (MoveFileAndAdjustPermissions this new_path s) =
      Some [InterruptReasonLogged "SHFileOperation"
              (relocation_code this new_path s) reason].
Proof.
  intros T E this new_path s reason Hentry HIn.
  pose proof (ShFileOperationCases_reasons _ _ HIn) as [Hne _].
  pose proof (MapShFileOperationCodes_case _ _ HIn) as Hmap.
  assert (Hnz : relocation_code this new_path s <> 0).
  { intro Hz. rewrite Hz in HIn. simpl in HIn.
    repeat (destruct HIn as [HIn|HIn]; [discriminate HIn|]).
    contradiction. }
  rewrite (MoveFileAndAdjustPermissions_run this new_path s Hentry).
  cbv zeta. unfold relocation_reason.
  apply Z.eqb_neq in Hnz. rewrite Hnz, Hmap.
  pose proof (proj2 (reason_eqb_NONE reason) Hne) as Heq. rewrite Heq.
  split; [exact Hne|]. split; [reflexivity|]. apply added_events_app.
Qed.

Lemma relocate_reports_legacy_codes_witness :
  @relocate_entry_ok (sample_environment true 0x78 1 S_OK false) /\
  In (sample_relocation_code true 0x78 1,
      DOWNLOAD_INTERRUPT_REASON_FILE_ACCESS_DENIED) ShFileOperationCases /\
  returned (sample_relocate true 0x78 1) =
    Some DOWNLOAD_INTERRUPT_REASON_FILE_ACCESS_DENIED.
Proof.
  pose (E := sample_environment true 0x78 1 S_OK false).
  assert (Hentry : @relocate_entry_ok E) by (intro; reflexivity).
  assert (HIn : In (sample_relocation_code true 0x78 1,
                    DOWNLOAD_INTERRUPT_REASON_FILE_ACCESS_DENIED)
                  ShFileOperationCases) by (simpl; tauto).
  split; [exact Hentry|]. split; [exact HIn|].
  exact (proj1 (proj2 (relocate_reports_legacy_codes sample_translator E
                         sample_file sample_target
                         (sample_state E sample_disk) _ Hentry HIn))).
Defined.

(** * Properties of the GPS location provider *)
Module GpsProperties.
Import Gps.

Section Facts.
Context `{Platform}.

Lemma live_RevokeAll (l : list PendingTask) : filter live (RevokeAll l) = [].
Proof. induction l as [|t l IH]; simpl; [reflexivity|exact IH]. Qed.

Lemma ScheduleNextGpsPoll_run (interval : Z) (s : State) :
  ScheduleNextGpsPoll interval s =
  Some (tt, set_message_loop
              (PostDelayedTask interval (RevokeAll (message_loop s))) s).
Proof. reflexivity. Qed.

Lemma live_after_schedule (interval : Z) (l : list PendingTask) :
  filter live (PostDelayedTask interval (RevokeAll l)) =
  [{| delay_ms := interval; live := true |}].
Proof.
  unfold PostDelayedTask. rewrite filter_app, live_RevokeAll. reflexivity.
Qed.

(** The movement test reads no state and changes none; its answer is the
    same from every state. *)
Lemma PositionsDifferSiginificantly_pure (p1 p2 : Geoposition) (s : State) :
  exists b, forall s' : State,
      PositionsDifferSiginificantly p1 p2 s' = Some (b, s').
Proof.
  unfold PositionsDifferSiginificantly, DCHECK, bind, ret.
  destruct (IsValidFix p1), (IsValidFix p2); simpl;
    try (eexists; intro; reflexivity).
  rewrite andb_false_r. eexists; intro; reflexivity.
Qed.


End Facts.

(** X11.  The movement test always answers, leaving the state alone: the
    assertion inside it cannot fail.  Two positions of which exactly one is
    a valid fix differ significantly; two positions of which none is a
    valid fix do not, whatever their coordinates. *)
Theorem positions_differ_by_validity :
  forall (A : Arithmetic) (P : Platform) (p1 p2 : Geoposition) (s : State),
    exists b : bool,
      PositionsDifferSiginificantly p1 p2 s = Some (b, s) /\
      (IsValidFix p1 <> IsValidFix p2 -> b = true) /\
      (IsValidFix p1 = false -> IsValidFix p2 = false -> b = false).
Proof.
  intros A P p1 p2 s.
  unfold PositionsDifferSiginificantly, DCHECK, bind, ret.
  destruct (IsValidFix p1), (IsValidFix p2); simpl.
  - eexists. split; [reflexivity|]. split; [congruence|discriminate].
  - exists true. split; [reflexivity|]. split; [reflexivity|discriminate].
  - exists true. split; [reflexivity|]. split; [reflexivity|discriminate].
  - rewrite andb_false_r. exists false.
    split; [reflexivity|]. split; [congruence|reflexivity].
Qed.

(** X12.  However many polls were pending, [ScheduleNextGpsPoll] leaves
    exactly one live task in the message loop, the one it posts with the
    given delay; the earlier tasks stay queued but are revoked, and nothing
    else of the provider changes. *)
Theorem schedule_leaves_one_live_task :
  forall (A : Arithmetic) (P : Platform) (interval : Z) (s : State),
    exists s' : State,
      ScheduleNextGpsPoll interval s = Some (tt, s') /\
      live_tasks s' = [{| delay_ms := interval; live := true |}] /\
      List.length (message_loop s') = S (List.length (message_loop s)) /\
      map delay_ms (message_loop s') =
        map delay_ms (message_loop s) ++ [interval] /\
      gps_ s' = gps_ s /\ position_ s' = position_ s /\
      host s' = host s /\ events s' = events s.
Proof.
  intros A P interval s. eexists. split; [apply ScheduleNextGpsPoll_run|].
  unfold live_tasks; simpl. split; [apply live_after_schedule|].
  unfold PostDelayedTask, RevokeAll. split.
  - rewrite length_app, length_map. simpl. lia.
  - split; [|repeat split].
    rewrite map_app, map_map. reflexivity.
Qed.

Section PollFacts.
Context `{Platform}.

(** The state a successful poll leaves, given the answer of the movement
    test. *)
Lemma DoGpsPollTask_success (s : State) (differ : bool) :
  gps_ s <> NULL ->
  poll_answer s = true ->
  (DCHECK_IS_ON = true -> IsInitialized (polled_position s) = true) ->
  (forall s0 : State,
      PositionsDifferSiginificantly (position_ s) (polled_position s) s0 =
      Some (differ, s0)) ->
  exists s' : State,
    DoGpsPollTask s = Some (tt, s') /\
    gps_ s' = gps_ s /\
    message_loop s' =
      PostDelayedTask (if differ then kPollPeriodMovingMillis
                       else kPollPeriodStationaryMillis)
        (RevokeAll (message_loop s)) /\
    (if differ || negb (error_code (polled_position s) =? ERROR_CODE_NONE)
     then position_ s' = polled_position s /\
          events s' = events s ++ [ListenersUpdated]
     else position_ s' = position_ s /\ events s' = events s).
Proof.
  intros Hnz Hpoll Hinit Hdiff.
  unfold DoGpsPollTask, bind, gps_arrow, hostcall, get.
  unfold poll_answer in Hpoll. unfold polled_position in *.
  apply Z.eqb_neq in Hnz. rewrite Hnz.
  destruct (LibGps_Poll (gps_ s) (host s)) as [polled h1]; simpl in *.
  subst polled. simpl. rewrite Hnz. simpl.
  destruct (LibGps_GetPosition (gps_ s) Geoposition_default h1)
    as [np h2]; simpl in *.
  unfold DCHECK.
  assert (Hd : DCHECK_IS_ON && negb (IsInitialized np) = false).
  { destruct DCHECK_IS_ON; [|reflexivity]. now rewrite (Hinit eq_refl). }
  rewrite Hd, Hdiff. unfold UpdateListeners, emit, modify, ret.
  destruct (differ || negb (error_code np =? ERROR_CODE_NONE)); simpl;
    eexists; (split; [reflexivity|]); simpl; repeat split; reflexivity.
Qed.

End PollFacts.

(** X13.  A poll that the library reports as failed stops the library and
    ends the polling: the task returns without posting another one, without
    touching the position and without notifying anyone. *)
Theorem failed_poll_stops_polling :
  forall (A : Arithmetic) (P : Platform) (s : State),
    gps_ s <> NULL ->
    poll_answer s = false ->
    exists s' : State,
      DoGpsPollTask s = Some (tt, s') /\
      host s' = LibGps_Stop (gps_ s) (snd (LibGps_Poll (gps_ s) (host s))) /\
      message_loop s' = message_loop s /\
      position_ s' = position_ s /\
      events s' = events s /\
      gps_ s' = gps_ s.
Proof.
  intros A P s Hnz Hpoll.
  unfold DoGpsPollTask, bind, gps_arrow, hostcall.
  unfold poll_answer in Hpoll.
  apply Z.eqb_neq in Hnz. rewrite Hnz.
  destruct (LibGps_Poll (gps_ s) (host s)) as [polled h1]; simpl in *.
  subst polled. simpl. rewrite Hnz.
  eexists. split; [reflexivity|]. simpl. repeat split; reflexivity.
Qed.

Lemma failed_poll_stops_polling_witness :
  let P := sample_platform true true false (sample_fix 10 10 0) in
  let s := sample_state P 0%nat 77 77 (sample_fix 0 0 0)
             [{| delay_ms := 5; live := false |}] in
  @gps_ _ P s <> NULL /\
  @poll_answer _ P s = false /\
  exists s' : @State _ P,
    @DoGpsPollTask _ P s = Some (tt, s') /\
    @message_loop _ P s' = [{| delay_ms := 5; live := false |}].
Proof.
  intros P s.
  assert (Hnz : @gps_ _ P s <> NULL) by discriminate.
  split; [exact Hnz|]. split; [reflexivity|].
  destruct (failed_poll_stops_polling sample_arithmetic P s Hnz eq_refl)
    as [s' [Hrun [_ [Hloop _]]]].
  exists s'. split; [exact Hrun|exact Hloop].
Defined.

(** X14.  A poll that succeeds posts exactly one live task for the next
    poll, 500 ms ahead when the new position differs significantly from the
    current one and 1500 ms ahead when it does not.  The new position
    replaces the current one, and the listeners are notified, exactly when
    it differs significantly or carries an error code. *)
Theorem successful_poll_schedules_next :
  forall (A : Arithmetic) (P : Platform) (s : State),
    gps_ s <> NULL ->
    poll_answer s = true ->
    (DCHECK_IS_ON = true -> IsInitialized (polled_position s) = true) ->
    exists (differ : bool) (s' : State),
      PositionsDifferSiginificantly (position_ s) (polled_position s) s =
        Some (differ, s) /\
      DoGpsPollTask s = Some (tt, s') /\
      live_tasks s' =
        [{| delay_ms := if differ then 500 else 1500; live := true |}] /\
      (if differ || negb (error_code (polled_position s) =? ERROR_CODE_NONE)
       then position_ s' = polled_position s /\
            events s' = events s ++ [ListenersUpdated]
       else position_ s' = position_ s /\ events s' = events s).
Proof.
  intros A P s Hnz Hpoll Hinit.
  destruct (PositionsDifferSiginificantly_pure
              (position_ s) (polled_position s) s) as [differ Hdiff].
  destruct (DoGpsPollTask_success s differ Hnz Hpoll Hinit Hdiff)
    as [s' [Hrun [_ [Hloop Hpos]]]].
  exists differ, s'. split; [apply Hdiff|]. split; [exact Hrun|].
  split; [|exact Hpos].
  unfold live_tasks. rewrite Hloop, live_after_schedule.
  destruct differ; reflexivity.
Qed.

Lemma successful_poll_schedules_next_witness :
  let P := sample_platform true true true (sample_fix 10 10 0) in
  let s := sample_state P 0%nat 77 77 (sample_fix 0 0 0) [] in
  @gps_ _ P s <> NULL /\
  @poll_answer _ P s = true /\
  @IsInitialized _ P (@polled_position _ P s) = true /\
  exists (differ : bool) (s' : @State _ P),
    @DoGpsPollTask _ P s = Some (tt, s') /\
    @live_tasks _ P s' =
      [{| delay_ms := if differ then 500 else 1500; live := true |}].
Proof.
  intros P s.
  assert (Hnz : @gps_ _ P s <> NULL) by discriminate.
  split; [exact Hnz|]. split; [reflexivity|]. split; [reflexivity|].
  destruct (successful_poll_schedules_next sample_arithmetic P s Hnz
              eq_refl (fun _ => eq_refl))
    as [differ [s' [_ [Hrun [Hlive _]]]]].
  exists differ, s'. split; [exact Hrun|exact Hlive].
Defined.



(** Simplify, using the comparisons already decided. *)
Ltac decided :=
  simpl;
  repeat match goal with
         | E : (?a =? ?b) = _ |- context [?a =? ?b] => rewrite E; simpl
         end.

Section StartFacts.
Context `{Platform}.

(** One call changes the message loop, if at all, by one
    [ScheduleNextGpsPoll] with one of the three delays of this file. *)
Lemma run_call_message_loop (c : Call) (s s' : State) :
  run_call c s = Some (tt, s') ->
  message_loop s' = message_loop s \/
  exists interval : Z,
    (interval = 0 \/ interval = 500 \/ interval = 1500) /\
    message_loop s' =
      PostDelayedTask interval (RevokeAll (message_loop s)).
Proof.
  destruct c; simpl.
  - destruct s as [factory g pos msg0 h ml ev].
    unfold StartProvider, bind, modify, get, hostcall, gps_reset, gps_arrow,
      emit, ret, ScheduleNextGpsPoll, set_host, set_position, set_gps,
      set_error_msg, set_message_loop.
    simpl.
    destruct (factory h) as [p h1]; simpl.
    destruct (p =? g) eqn:Hp; simpl.
    + destruct (g =? NULL) eqn:Hg; decided.
      * intros [= <-]. now left.
      * destruct (LibGps_Start g msg0 h1) as [[ok msg] h2]; simpl.
        destruct ok; simpl; intros [= <-]; simpl.
        -- right. exists 0. split; [now left|reflexivity].
        -- now left.
    + destruct (p =? NULL) eqn:Hn; decided.
      * intros [= <-]. now left.
      * destruct (LibGps_Start p msg0
                    (if g =? NULL then h1 else LibGps_delete g h1))
          as [[ok msg] h2]; simpl.
        destruct ok; simpl; intros [= <-]; simpl.
        -- right. exists 0. split; [now left|reflexivity].
        -- now left.
  - unfold GetPosition, bind, DCHECK, get, ret, abort.
    destruct position as [q|]; simpl.
    + destruct DCHECK_IS_ON; simpl.
      * destruct (IsInitialized (position_ s)); simpl; [|discriminate].
        intros [= <-]. now left.
      * intros [= <-]. now left.
    + destruct (DCHECK_IS_ON && true); discriminate.
  - unfold UpdatePosition. rewrite ScheduleNextGpsPoll_run.
    intros [= <-]. right. exists 0. split; [now left|reflexivity].
  - unfold OnPermissionGranted, ret. intros [= <-]. now left.
  - destruct s as [factory g pos msg0 h ml ev].
    unfold DoGpsPollTask, bind, gps_arrow, hostcall, get. simpl.
    destruct (g =? NULL) eqn:Hg; [discriminate|]. decided.
    destruct (LibGps_Poll g h) as [polled h1]; decided.
    destruct polled; decided.
    + destruct (LibGps_GetPosition g Geoposition_default h1)
        as [np h2]; decided.
      unfold DCHECK.
      destruct (DCHECK_IS_ON && negb (IsInitialized np)); [discriminate|].
      destruct (PositionsDifferSiginificantly_pure pos np s')
        as [differ Hdiff].
      simpl. rewrite Hdiff.
      unfold UpdateListeners, emit, modify, ret.
      destruct (differ || negb (error_code np =? ERROR_CODE_NONE)); simpl;
        intros [= <-]; simpl; right;
        exists (if differ then kPollPeriodMovingMillis
                else kPollPeriodStationaryMillis);
        (split; [destruct differ; [right; left|right; right]; reflexivity
                |reflexivity]).
    + intros [= <-]. now left.
Qed.

Lemma StartProvider_returns_true (s : State) :
  exists s' : State,
    StartProvider s = Some (true, s') /\ gps_ s' = loaded_ptr s /\
    (loaded_ptr s = NULL -> message_loop s' = message_loop s).
Proof.
  destruct s as [factory g pos msg0 h ml ev].
  unfold StartProvider, bind, modify, get, hostcall, gps_reset, gps_arrow,
    emit, ret, ScheduleNextGpsPoll, loaded_ptr, set_host, set_position,
    set_gps, set_error_msg, set_message_loop.
  simpl.
  destruct (factory h) as [p h1]; simpl.
  destruct (Z.eqb_spec p g) as [He|Hne]; simpl.
  - subst p. destruct (g =? NULL) eqn:Hg; decided.
    + eexists. repeat split; reflexivity.
    + apply Z.eqb_neq in Hg.
      destruct (LibGps_Start g msg0 h1) as [[ok msg] h2]; simpl.
      destruct ok; simpl; eexists; (split; [reflexivity|]);
        (split; [reflexivity|]); intro Hz; contradiction.
  - destruct (p =? NULL) eqn:Hn; decided.
    + eexists. repeat split; reflexivity.
    + apply Z.eqb_neq in Hn.
      destruct (LibGps_Start p msg0
                  (if g =? NULL then h1 else LibGps_delete g h1))
        as [[ok msg] h2]; simpl.
      destruct ok; simpl; eexists; (split; [reflexivity|]);
        (split; [reflexivity|]); intro Hz; contradiction.
Qed.

End StartFacts.

(** X16.  [StartProvider] always returns, and always returns [true], also
    when the library cannot be loaded or cannot be started.  It marks the
    current position as unavailable and keeps its coordinates.  It posts
    the first poll, without delay, only when the library loaded and
    started; otherwise it logs a warning and posts nothing. *)
Theorem start_provider_never_reports_failure :
  forall (A : Arithmetic) (P : Platform) (s : State),
    exists s' : State,
      StartProvider s = Some (true, s') /\
      gps_ s' = loaded_ptr s /\
      error_code (position_ s') = ERROR_CODE_POSITION_UNAVAILABLE /\
      latitude (position_ s') = latitude (position_ s) /\
      longitude (position_ s') = longitude (position_ s) /\
      (loaded_ptr s = NULL ->
       message_loop s' = message_loop s /\
       events s' =
         events s ++ [LogWarning "libgps.so could not be loaded"]) /\
      (loaded_ptr s <> NULL -> fst (start_answer s) = false ->
       message_loop s' = message_loop s /\
       events s' =
         events s ++
         [LogWarning ("Couldn't start GPS provider: " ++
                      snd (start_answer s))]) /\
      (loaded_ptr s <> NULL -> fst (start_answer s) = true ->
       live_tasks s' = [{| delay_ms := 0; live := true |}] /\
       events s' = events s).
Proof.
  intros A P s. destruct s as [factory g pos msg0 h ml ev].
  unfold StartProvider, bind, modify, get, hostcall, gps_reset, gps_arrow,
    emit, ret, ScheduleNextGpsPoll, start_answer, host_after_reset,
    loaded_ptr, live_tasks, set_host, set_position, set_gps, set_error_msg,
    set_message_loop.
  simpl.
  destruct (factory h) as [p h1]; simpl.
  destruct (Z.eqb_spec p g) as [He|Hne]; simpl.
  - subst p.
    destruct (g =? NULL) eqn:Hg; decided;
      [apply Z.eqb_eq in Hg|apply Z.eqb_neq in Hg].
    + eexists. split; [reflexivity|]. simpl.
      repeat split; try reflexivity; intros; contradiction.
    + destruct (LibGps_Start g msg0 h1) as [[ok msg] h2]; simpl.
      destruct ok; simpl; eexists; (split; [reflexivity|]); simpl;
        repeat split; try reflexivity; intros;
        try contradiction; try discriminate.
      apply live_after_schedule.
  - destruct (p =? NULL) eqn:Hn; decided;
      [apply Z.eqb_eq in Hn|apply Z.eqb_neq in Hn].
    + eexists. split; [reflexivity|]. simpl.
      repeat split; try reflexivity; intros; contradiction.
    + destruct (LibGps_Start p msg0
                  (if g =? NULL then h1 else LibGps_delete g h1))
        as [[ok msg] h2]; simpl.
      destruct ok; simpl; eexists; (split; [reflexivity|]); simpl;
        repeat split; try reflexivity; intros;
        try contradiction; try discriminate.
      apply live_after_schedule.
Qed.

(** X17.  A [StartProvider] that could not load the library returns with
    [gps_] null and the message loop as it was: it posts no poll and
    revokes none.  A client that then calls [UpdatePosition] gets a poll
    posted all the same, the only live task from then on, and that poll
    goes through the null [gps_]: the sequence does not survive it. *)
Theorem update_after_failed_load_polls_null_gps :
  forall (A : Arithmetic) (P : Platform) (s : State),
    loaded_ptr s = NULL ->
    (exists s1 : State,
        StartProvider s = Some (true, s1) /\
        gps_ s1 = NULL /\
        message_loop s1 = message_loop s) /\
    (exists s' : State,
        run_calls [CallStartProvider; CallUpdatePosition] s = Some (tt, s') /\
        gps_ s' = NULL /\
        message_loop s' = PostDelayedTask 0 (RevokeAll (message_loop s)) /\
        live_tasks s' = [{| delay_ms := 0; live := true |}]) /\
    run_calls [CallStartProvider; CallUpdatePosition; CallDoGpsPollTask] s =
      None.
Proof.
  intros A P s Hnull.
  destruct (StartProvider_returns_true s)
    as [s1 [Hstart [Hgps Hloop]]].
  rewrite Hnull in Hgps. specialize (Hloop Hnull).
  split; [exists s1; now repeat split|].
  unfold run_calls, run_call, bind. rewrite Hstart.
  unfold ret at 1 3. unfold UpdatePosition. rewrite !ScheduleNextGpsPoll_run.
  split.
  - eexists. split; [reflexivity|]. simpl. split; [exact Hgps|].
    rewrite Hloop. split; [reflexivity|]. apply live_after_schedule.
  - unfold DoGpsPollTask, bind, gps_arrow. simpl. now rewrite Hgps.
Qed.

Lemma update_after_failed_load_polls_null_gps_witness :
  let P := sample_platform false true true (sample_fix 10 10 0) in
  let s := sample_state P 0%nat 0 0 (sample_fix 0 0 0) [] in
  @loaded_ptr _ P s = NULL /\
  @run_calls _ P [CallStartProvider; CallUpdatePosition; CallDoGpsPollTask] s =
    None.
Proof.
  intros P s. split; [reflexivity|].
  exact (proj2 (proj2 (update_after_failed_load_polls_null_gps
                         sample_arithmetic P s eq_refl))).
Defined.

(** X18.  The provider never has two polls in flight.  Run any sequence of
    calls from a state with at most one live task whose delay is 0, 500 or
    1500 ms: if the sequence returns, the message loop again holds at most
    one live task, with one of these three delays. *)
Theorem at_most_one_live_poll :
  forall (A : Arithmetic) (P : Platform) (calls : list Call) (s s' : State),
    (List.length (live_tasks s) <= 1)%nat ->
    (forall t, In t (live_tasks s) ->
               delay_ms t = 0 \/ delay_ms t = 500 \/ delay_ms t = 1500) ->
    run_calls calls s = Some (tt, s') ->
    (List.length (live_tasks s') <= 1)%nat /\
    (forall t, In t (live_tasks s') ->
               delay_ms t = 0 \/ delay_ms t = 500 \/ delay_ms t = 1500).
Proof.
  intros A P calls. induction calls as [|c rest IH]; intros s s' Hlen Hdel.
  - simpl. unfold ret. intros [= <-]. now split.
  - simpl. unfold bind. destruct (run_call c s) as [[[] s1]|] eqn:Hc;
      [|discriminate].
    intro Hrest. apply (IH s1 s'); [| |exact Hrest].
    + destruct (run_call_message_loop c s s1 Hc) as [Hsame|[i [_ Hpost]]];
        unfold live_tasks in *.
      * now rewrite Hsame.
      * rewrite Hpost, live_after_schedule. simpl. lia.
    + destruct (run_call_message_loop c s s1 Hc) as [Hsame|[i [Hi Hpost]]];
        unfold live_tasks in *.
      * now rewrite Hsame.
      * rewrite Hpost, live_after_schedule. intros t [<-|[]]. exact Hi.
Qed.

Lemma at_most_one_live_poll_witness :
  let P := sample_platform true true true (sample_fix 10 10 0) in
  let s := sample_state P 0%nat 77 0 (sample_fix 0 0 0) [] in
  exists s' : @State _ P,
    @run_calls _ P
      [CallStartProvider; CallDoGpsPollTask; CallUpdatePosition;
       CallDoGpsPollTask] s = Some (tt, s') /\
    (List.length (@live_tasks _ P s') <= 1)%nat.
Proof.
  intros P s.
  assert (Hlen : (List.length (@live_tasks _ P s) <= 1)%nat)
    by (simpl; lia).
  assert (Hdel : forall t, In t (@live_tasks _ P s) ->
                 delay_ms t = 0 \/ delay_ms t = 500 \/ delay_ms t = 1500)
    by (intros t []).
  destruct (@run_calls _ P
              [CallStartProvider; CallDoGpsPollTask; CallUpdatePosition;
               CallDoGpsPollTask] s) as [[[] s']|] eqn:Hrun.
  - exists s'. split; [reflexivity|].
    exact (proj1 (at_most_one_live_poll sample_arithmetic P _ s s'
                    Hlen Hdel Hrun)).
  - exfalso. vm_compute in Hrun. discriminate Hrun.
Defined.

End GpsProperties.
